(** * The HTTP access layer of the Canvas client (src/client.ts)

    A shallow embedding of [CanvasClient]: its constructor, the response
    and error interceptors installed by [setupInterceptors] (pagination
    drain, retry with backoff, error normalisation), [shouldRetry],
    [getNextPageUrl], [healthCheck] and [getCourseStudents].

    Conventions of the embedding:
    - a JavaScript string is a [string]; one [ascii] stands for one code unit;
    - a JavaScript number is a [Z] (status codes, counters, delays and the
      integers of a JSON payload);
    - [undefined] is the [None] of an [option];
    - asynchronous code is sequenced: a call threads the state of the remote
      side and the diagnostic log explicitly. *)

From Stdlib Require Import ZArith List String Ascii Bool Lia DecimalString.
Import ListNotations.
Open Scope string_scope.
Open Scope Z_scope.
Set Warnings "-register-all".

(** ** JavaScript values and built-ins used by the client *)

Module JS.

(** Decoded JSON payloads ([response.data]). *)
Inductive Json : Type :=
| JNull
| JBool (b : bool)
| JNum (n : Z)
| JStr (s : string)
| JArr (items : list Json)
| JObj (fields : list (string * Json)).

Definition dquote : ascii := "034"%char.
Definition backslash : ascii := "092"%char.

(** [String(n)] for an integer. *)
Definition string_of_Z (n : Z) : string :=
  NilZero.string_of_int (Z.to_int n).

Definition string_of_nat (n : nat) : string := string_of_Z (Z.of_nat n).

(** [s.length] *)
Definition strlen (s : string) : Z := Z.of_nat (String.length s).

(** [s.substring(0, n)] *)
Definition substring0 (n : nat) (s : string) : string := String.substring 0 n s.

(** [hay.includes(needle)] *)
Fixpoint includes (needle hay : string) : bool :=
  if String.prefix needle hay then true
  else match hay with
       | EmptyString => false
       | String _ rest => includes needle rest
       end.

(** [s.split(sep)] for a one-character separator. *)
Fixpoint split_on (sep : ascii) (s : string) : list string :=
  match s with
  | EmptyString => [EmptyString]
  | String c rest =>
      if Ascii.eqb c sep then EmptyString :: split_on sep rest
      else match split_on sep rest with
           | [] => [String c EmptyString]
           | piece :: pieces => String c piece :: pieces
           end
  end.

(** [items.join(sep)] on strings. *)
Fixpoint join (sep : string) (items : list string) : string :=
  match items with
  | [] => EmptyString
  | [x] => x
  | x :: rest => x ++ sep ++ join sep rest
  end.

(** Truthiness of a value ([if (v)], [v || w], [v && w]). *)
Definition truthy (v : Json) : bool :=
  match v with
  | JNull => false
  | JBool b => b
  | JNum n => negb (n =? 0)
  | JStr s => negb (String.eqb s EmptyString)
  | JArr _ | JObj _ => true
  end.

Definition truthy_opt (v : option Json) : bool :=
  match v with Some x => truthy x | None => false end.

Fixpoint assoc (k : string) (fields : list (string * Json)) : option Json :=
  match fields with
  | [] => None
  | (k', v) :: rest => if String.eqb k k' then Some v else assoc k rest
  end.

(** [v.k] (or [v?.k]) on a value that is neither [null] nor [undefined]:
    own properties of an object; the named properties read by the client
    ([message], [errors], [created_at], [id], [name]) are [undefined] on
    arrays, strings, numbers and booleans. *)
Definition get_prop (v : Json) (k : string) : option Json :=
  match v with
  | JObj fields => assoc k fields
  | _ => None
  end.

(** [{...fields, k: v}]: an existing key keeps its place, a new one is
    appended. *)
Fixpoint set_prop (k : string) (v : Json) (fields : list (string * Json))
  : list (string * Json) :=
  match fields with
  | [] => [(k, v)]
  | (k', v') :: rest =>
      if String.eqb k k' then (k, v) :: rest else (k', v') :: set_prop k v rest
  end.

Definition chars_of (s : string) : list Json :=
  map (fun c => JStr (String c EmptyString)) (list_ascii_of_string s).

Fixpoint index_from (i : nat) (items : list Json) : list (string * Json) :=
  match items with
  | [] => []
  | x :: rest => (string_of_nat i, x) :: index_from (S i) rest
  end.

(** The own enumerable properties copied by an object spread [{...v}]. *)
Definition spread_props (v : Json) : list (string * Json) :=
  match v with
  | JObj fields => fields
  | JArr items => index_from 0 items
  | JStr s => index_from 0 (chars_of s)
  | _ => []
  end.

(** The elements produced by an array spread [...v]; [None] when [v] is not
    iterable (a TypeError). *)
Definition spread_iter (v : Json) : option (list Json) :=
  match v with
  | JArr items => Some items
  | JStr s => Some (chars_of s)
  | _ => None
  end.

(** [String(v)], also the conversion of a template literal [`${v}`]. *)
Fixpoint ToString (v : Json) : string :=
  match v with
  | JNull => "null"
  | JBool true => "true"
  | JBool false => "false"
  | JNum n => string_of_Z n
  | JStr s => s
  | JArr items =>
      (fix elems (l : list Json) : string :=
         match l with
         | [] => EmptyString
         | [x] => match x with JNull => EmptyString | _ => ToString x end
         | x :: rest =>
             (match x with JNull => EmptyString | _ => ToString x end)
               ++ "," ++ elems rest
         end) items
  | JObj _ => "[object Object]"
  end.

Definition ToString_opt (v : option Json) : string :=
  match v with Some x => ToString x | None => "undefined" end.

Definition hex_digit (n : nat) : ascii :=
  match n with
  | 0 => "0" | 1 => "1" | 2 => "2" | 3 => "3" | 4 => "4" | 5 => "5"
  | 6 => "6" | 7 => "7" | 8 => "8" | 9 => "9" | 10 => "a" | 11 => "b"
  | 12 => "c" | 13 => "d" | 14 => "e" | _ => "f"
  end%nat%char.

(** Escaping of one code unit inside a JSON string literal. *)
Definition json_escape (c : ascii) : string :=
  let n := nat_of_ascii c in
  if Ascii.eqb c dquote then String backslash (String dquote EmptyString)
  else if Ascii.eqb c backslash then String backslash (String backslash EmptyString)
  else if Nat.eqb n 8 then String backslash "b"
  else if Nat.eqb n 9 then String backslash "t"
  else if Nat.eqb n 10 then String backslash "n"
  else if Nat.eqb n 12 then String backslash "f"
  else if Nat.eqb n 13 then String backslash "r"
  else if Nat.ltb n 32 then
    String backslash
      ("u00" ++ String (hex_digit (Nat.div n 16))
                  (String (hex_digit (Nat.modulo n 16)) EmptyString))
  else String c EmptyString.

Definition json_quote (s : string) : string :=
  String dquote
    (String.concat EmptyString (map json_escape (list_ascii_of_string s))
       ++ String dquote EmptyString).

(** [JSON.stringify(v)] *)
Fixpoint JSON_stringify (v : Json) : string :=
  match v with
  | JNull => "null"
  | JBool true => "true"
  | JBool false => "false"
  | JNum n => string_of_Z n
  | JStr s => json_quote s
  | JArr items =>
      "[" ++ (fix elems (l : list Json) : string :=
                match l with
                | [] => EmptyString
                | [x] => JSON_stringify x
                | x :: rest => JSON_stringify x ++ "," ++ elems rest
                end) items ++ "]"
  | JObj fields =>
      "{" ++ (fix members (l : list (string * Json)) : string :=
                match l with
                | [] => EmptyString
                | [(k, x)] => json_quote k ++ ":" ++ JSON_stringify x
                | (k, x) :: rest =>
                    json_quote k ++ ":" ++ JSON_stringify x ++ "," ++ members rest
                end) fields ++ "}"
  end.

Definition upper_hex_digit (n : nat) : ascii :=
  match n with
  | 10 => "A" | 11 => "B" | 12 => "C" | 13 => "D" | 14 => "E" | 15 => "F"
  | _ => hex_digit n
  end%nat%char.

Definition percent_byte (n : nat) : string :=
  String "%" (String (upper_hex_digit (Nat.div n 16))
                (String (upper_hex_digit (Nat.modulo n 16)) EmptyString)).

(** The application/x-www-form-urlencoded serialisation of one code unit
    (two UTF-8 bytes from 128 up). *)
Definition form_encode_char (c : ascii) : string :=
  let n := nat_of_ascii c in
  if ((48 <=? n) && (n <=? 57) || (65 <=? n) && (n <=? 90)
      || (97 <=? n) && (n <=? 122)
      || (n =? 42) || (n =? 45) || (n =? 46) || (n =? 95))%nat
  then String c EmptyString
  else if (n =? 32)%nat then "+"
  else if (n <? 128)%nat then percent_byte n
  else percent_byte (192 + Nat.div n 64) ++ percent_byte (128 + Nat.modulo n 64).

Definition form_encode (s : string) : string :=
  String.concat EmptyString (map form_encode_char (list_ascii_of_string s)).

(** [params.toString()] of a [URLSearchParams]. *)
Definition urlsearchparams_toString (params : list (string * string)) : string :=
  join "&" (map (fun kv => form_encode (fst kv) ++ "=" ++ form_encode (snd kv)) params).

End JS.
Import JS.

(** ** HTTP data: requests, responses, failures *)

Record Headers : Type := mkHeaders {
  link : option string;           (* headers.link *)
  content_type : option string    (* headers['content-type'] *)
}.

Record Response : Type := mkResponse {
  status : Z;
  data : Json;
  headers : Headers
}.

(** The request configuration, with the fields the client reads; the retry
    counter is the ad-hoc property [config.__retryCount], absent ([None])
    on a configuration the client has not yet marked. *)
Record Config : Type := mkConfig {
  method : string;
  url : string;
  __retryCount : option Z
}.

(** [AxiosError]: [response] is present when the server answered with a
    status outside 2xx, [request] is truthy when the request was sent. *)
Record AxiosError : Type := mkAxiosError {
  message : string;
  config : option Config;
  request_sent : bool;
  response : option Response
}.

(** What one attempt on the wire settles to, before the response
    interceptors run. *)
Inductive Settled : Type :=
| Fulfilled (r : Response)
| Rejected (e : AxiosError).

(** Values a call can raise.
    Modelled from the spec: the Typed Error is the class [CanvasAPIError]
    of types.ts, which is not among the sources; the client constructs it
    from a message, a status and the raw body, which the spec says it
    carries. *)
Inductive Thrown : Type :=
| CanvasAPIError (msg : string) (code : Z) (body : Json)
| Unwrapped (e : AxiosError)     (* an error re-thrown as received *)
| TypeError.                     (* raised by the JavaScript runtime *)

(** Lines written to the diagnostic stream, and the waits. *)
Inductive Event : Type :=
| EvRequest (c : Config)                    (* request interceptor *)
| EvRetry (count limit delay : Z)           (* "Retrying request (count/limit) after delay ms" *)
| EvSleep (ms : Z)                          (* await this.sleep(ms) *)
| EvErrorResponse (code : Z)
| EvNetworkError (m : string)
| EvUnexpected (m : string).

Definition is_request (e : Event) : bool :=
  match e with EvRequest _ => true | _ => false end.

(** Number of requests put on the wire. *)
Definition attempts (log : list Event) : nat :=
  List.length (filter is_request log).

Fixpoint sleeps (log : list Event) : list Z :=
  match log with
  | [] => []
  | EvSleep ms :: rest => ms :: sleeps rest
  | _ :: rest => sleeps rest
  end.

Fixpoint requested_urls (log : list Event) : list string :=
  match log with
  | [] => []
  | EvRequest c :: rest => url c :: requested_urls rest
  | _ :: rest => requested_urls rest
  end.

(** ** Construction *)

(** The options bag. The declared type has [maxRetries] and [retryDelay];
    [timeout] stands for the property of that name on a bag that carries
    one (the constructor never reads it). *)
Record Options : Type := mkOptions {
  opt_maxRetries : option Z;
  opt_retryDelay : option Z;
  opt_timeout : option Z
}.

Record CanvasClient : Type := mkClient {
  baseURL : string;
  maxRetries : Z;
  retryDelay : Z;
  authorization : string;      (* default header Authorization *)
  default_content_type : string;
  timeout : Z
}.

(** [a ?? b] *)
Definition nullish {A : Type} (a : option A) (b : A) : A :=
  match a with Some x => x | None => b end.

(** [options?.field] *)
Definition opt_chain {A B : Type} (o : option A) (f : A -> option B) : option B :=
  match o with Some x => f x | None => None end.

Definition constructor (token domain : string) (options : option Options)
  : CanvasClient :=
  {| baseURL := "https://" ++ domain ++ "/api/v1";
     maxRetries := nullish (opt_chain options opt_maxRetries) 3;
     retryDelay := nullish (opt_chain options opt_retryDelay) 1000;
     authorization := "Bearer " ++ token;
     default_content_type := "application/json";
     timeout := 30000 |}.

(** ** Pure helpers of the interceptors *)

Definition shouldRetry (error : AxiosError) : bool :=
  match response error with
  | None => true
  | Some r => (status r =? 429) || (status r >=? 500)
  end.

Definition rel_next : string :=
  "rel=" ++ String dquote ("next" ++ String dquote EmptyString).

(** A [.] of a regular expression matches anything but a line terminator. *)
Definition line_terminator (c : ascii) : bool :=
  Ascii.eqb c "010"%char || Ascii.eqb c "013"%char.

(** The rest of [/<(.+?)>/] once [<] and the first captured code unit are
    consumed: the shortest run up to the next [>]. *)
Fixpoint lazy_until_gt (s : string) : option string :=
  match s with
  | EmptyString => None
  | String c rest =>
      if Ascii.eqb c ">"%char then Some EmptyString
      else if line_terminator c then None
      else match lazy_until_gt rest with
           | Some g => Some (String c g)
           | None => None
           end
  end.

(** [s.match(/<(.+?)>/)], giving the captured group of the leftmost match. *)
Fixpoint match_angle (s : string) : option string :=
  match s with
  | EmptyString => None
  | String c rest =>
      let here :=
        if Ascii.eqb c "<"%char then
          match rest with
          | String c1 rest1 =>
              if line_terminator c1 then None
              else match lazy_until_gt rest1 with
                   | Some g => Some (String c1 g)
                   | None => None
                   end
          | EmptyString => None
          end
        else None in
      match here with
      | Some g => Some g
      | None => match_angle rest
      end
  end.

Definition getNextPageUrl (linkHeader : string) : option string :=
  let links := split_on ","%char linkHeader in
  match find (fun l => includes rel_next l) links with
  | None => None
  | Some nextLink => match_angle nextLink
  end.

(** [config.__retryCount < this.maxRetries]: a comparison with [undefined]
    is false. *)
Definition js_lt (a : option Z) (b : Z) : bool :=
  match a with
  | Some x => x <? b
  | None => false
  end.

(** [config.__retryCount || 0] *)
Definition or_zero (a : option Z) : Z :=
  match a with
  | Some x => if x =? 0 then 0 else x
  | None => 0
  end.

(** [this.retryDelay * Math.pow(2, count - 1)], on counts from 1 up. *)
Definition backoff (delay0 count : Z) : Z := delay0 * 2 ^ (count - 1).

(** [err.message || err], for one element of [data.errors]; [None] is the
    TypeError of reading a property of [null]. *)
Definition error_item (err : Json) : option Json :=
  match err with
  | JNull => None
  | _ => match get_prop err "message" with
         | Some m => if truthy m then Some m else Some err
         | None => Some err
         end
  end.

Fixpoint map_items (errs : list Json) : option (list Json) :=
  match errs with
  | [] => Some []
  | e :: rest =>
      match error_item e with
      | None => None
      | Some x => match map_items rest with
                  | Some xs => Some (x :: xs)
                  | None => None
                  end
      end
  end.

(** An element of [Array.prototype.join]: [null] gives the empty string. *)
Definition join_item (v : Json) : string :=
  match v with JNull => EmptyString | _ => ToString v end.

(** The [try { ... } catch { ... }] block that computes [errorMessage] from
    [error.response.data]. *)
Definition errorMessage (d : Json) : string :=
  match d with
  | JStr s => if strlen s >? 200 then substring0 200 s ++ "..." else s
  | JObj _ | JArr _ =>
      if truthy_opt (get_prop d "message") then
        ToString_opt (get_prop d "message")
      else
        match get_prop d "errors" with
        | Some (JArr errs) =>
            match map_items errs with
            | Some items => join ", " (map join_item items)
            | None => ToString d               (* catch (jsonError) *)
            end
        | _ => JSON_stringify d
        end
  | _ => ToString d
  end.

Definition api_error_message (code : Z) (d : Json) : string :=
  "Canvas API Error (" ++ string_of_Z code ++ "): " ++ errorMessage d.

Definition network_error_message (m : string) : string :=
  "Network error: " ++ m.

(** ** Calls: state, exceptions and fuel *)

Inductive Result (A : Type) : Type :=
| Returned (a : A)
| Threw (e : Thrown).
Arguments Returned {A} a.
Arguments Threw {A} e.

Section Client.

(** The remote side: [wire w c] is what sending [c] settles to in state [w]
    (the HTTP adapter, status validation included), with the state after
    it; [clock w] is [new Date().toISOString()] in state [w]. *)
Variable World : Type.
Variable wire : World -> Config -> Settled * World.
Variable clock : World -> string.

Record State : Type := mkState {
  world : World;
  log : list Event
}.

(** A computation either completes, returning or throwing, or does not
    within the fuel it was given ([None]). *)
Definition M (A : Type) : Type := State -> option (Result A * State).

Definition ret {A : Type} (a : A) : M A := fun s => Some (Returned a, s).

Definition throw {A : Type} (e : Thrown) : M A := fun s => Some (Threw e, s).

Definition pending {A : Type} : M A := fun _ => None.

Definition bind {A B : Type} (m : M A) (k : A -> M B) : M B :=
  fun s =>
    match m s with
    | None => None
    | Some (Returned a, s') => k a s'
    | Some (Threw e, s') => Some (Threw e, s')
    end.

(** [try { m } catch (e) { h e }] *)
Definition try_catch {A : Type} (m : M A) (h : Thrown -> M A) : M A :=
  fun s =>
    match m s with
    | None => None
    | Some (Returned a, s') => Some (Returned a, s')
    | Some (Threw e, s') => h e s'
    end.

Definition emit (e : Event) : M unit :=
  fun s => Some (Returned tt, {| world := world s; log := log s ++ [e] |}).

Definition send (c : Config) : M Settled :=
  fun s =>
    let (r, w') := wire (world s) c in
    Some (Returned r, {| world := w'; log := log s |}).

Definition now : M string := fun s => Some (Returned (clock (world s)), s).

Notation "x <- m ;; k" := (bind m (fun x => k))
  (at level 61, m at next level, right associativity).
Notation "m ;;; k" := (bind m (fun _ => k))
  (at level 61, right associativity).

Variable self : CanvasClient.

(** [this.client.get(url)] builds a fresh configuration. *)
Definition get_config (u : string) : Config :=
  {| method := "get"; url := u; __retryCount := None |}.

Definition with_retryCount (c : Config) (n : Z) : Config :=
  {| method := method c; url := url c; __retryCount := Some n |}.

Definition with_data (r : Response) (d : Json) : Response :=
  {| status := status r; data := d; headers := headers r |}.

(** The condition under which the response interceptor drains pages. *)
Definition paginated (r : Response) : option (list Json * string) :=
  match data r, link (headers r) with
  | JArr items, Some l =>
      if negb (String.eqb l EmptyString)
         && includes "application/json" (nullish (content_type (headers r)) EmptyString)
      then Some (items, l) else None
  | _, _ => None
  end.

(** The error interceptor below its retry branch (the transformation of
    the error into what is thrown). *)
Definition transformError {A : Type} (error : AxiosError) : M A :=
  match response error with
  | Some r =>
      emit (EvErrorResponse (status r)) ;;;
      throw (CanvasAPIError (api_error_message (status r) (data r)) (status r) (data r))
  | None =>
      if request_sent error then
        emit (EvNetworkError (message error)) ;;;
        throw (CanvasAPIError (network_error_message (message error)) 0 JNull)
      else
        emit (EvUnexpected (message error)) ;;;
        throw (Unwrapped error)
  end.

(** The retry branch of the error interceptor, up to the wait: when the
    guard holds, the configuration to send again (its counter initialised
    and incremented), the new count and the delay. *)
Definition retryPlan (error : AxiosError) : option (Config * Z * Z) :=
  match config error with
  | Some c =>
      if shouldRetry error && js_lt (__retryCount c) (maxRetries self) then
        let count := or_zero (__retryCount c) + 1 in
        Some (with_retryCount c count, count, backoff (retryDelay self) count)
      else None
  | None => None
  end.

(** [this.client.request(config)]: the request interceptor, the wire, then
    the response interceptor on success and the error interceptor on
    failure. Both interceptors call back into the same client: the page
    loop through [this.client.get], the retry through
    [this.client.request], so every nested call runs the interceptors
    again. [drain] is the body of the [while (nextUrl)] loop, entered with
    the truthy [nextUrl] that the loop test has just passed. *)
Fixpoint request (fuel : nat) (c : Config) {struct fuel} : M Response :=
  match fuel with
  | O => pending
  | S fuel' =>
      emit (EvRequest c) ;;;
      settled <- send c ;;
      match settled with
      | Fulfilled r =>
          match paginated r with
          | Some (items, linkHeader) =>
              allData <- match getNextPageUrl linkHeader with
                         | Some nextUrl => drain fuel' items nextUrl
                         | None => ret items
                         end ;;
              ret (with_data r (JArr allData))
          | None => ret r
          end
      | Rejected error =>
          match retryPlan error with
          | Some (c', count, delay) =>
              emit (EvRetry count (maxRetries self) delay) ;;;
              emit (EvSleep delay) ;;;
              request fuel' c'
          | None => transformError error
          end
      end
  end
with drain (fuel : nat) (allData : list Json) (nextUrl : string)
       {struct fuel} : M (list Json) :=
  match fuel with
  | O => pending
  | S fuel' =>
      nextResponse <- request fuel' (get_config nextUrl) ;;
      match spread_iter (data nextResponse) with
      | None => throw TypeError         (* the payload is not iterable *)
      | Some more =>
          match link (headers nextResponse) with
          | None => throw TypeError     (* linkHeader.split on undefined *)
          | Some l =>
              match getNextPageUrl l with
              | Some nextUrl' => drain fuel' (allData ++ more)%list nextUrl'
              | None => ret (allData ++ more)%list
              end
          end
      end
  end.

Definition get (fuel : nat) (u : string) : M Response :=
  request fuel (get_config u).

(** The response and error interceptors on a request that has settled:
    what [request] does once the wire has answered. *)
Definition respond (fuel : nat) (settled : Settled) : M Response :=
  match settled with
  | Fulfilled r =>
      match paginated r with
      | Some (items, linkHeader) =>
          allData <- match getNextPageUrl linkHeader with
                     | Some nextUrl => drain fuel items nextUrl
                     | None => ret items
                     end ;;
          ret (with_data r (JArr allData))
      | None => ret r
      end
  | Rejected error =>
      match retryPlan error with
      | Some (c', count, delay) =>
          emit (EvRetry count (maxRetries self) delay) ;;;
          emit (EvSleep delay) ;;;
          request fuel c'
      | None => transformError error
      end
  end.

(** ** Accessors *)

(** Reading [v.k] where [v] may be [null]: a TypeError on [null]. *)
Definition read_prop (v : Json) (k : string) : M (option Json) :=
  match v with
  | JNull => throw TypeError
  | _ => ret (get_prop v k)
  end.

Definition getUserProfile (fuel : nat) : M Json :=
  response <- get fuel "/users/self/profile" ;;
  ret (data response).

Inductive HealthStatus : Type := ok | error.

Record UserSummary : Type := mkUserSummary {
  id : option Json;
  name : option Json
}.

Record Health : Type := mkHealth {
  health_status : HealthStatus;
  timestamp : string;
  user : option UserSummary
}.

Definition healthCheck (fuel : nat) : M Health :=
  try_catch
    (profile <- getUserProfile fuel ;;
     t <- now ;;
     uid <- read_prop profile "id" ;;
     uname <- read_prop profile "name" ;;
     ret {| health_status := ok; timestamp := t;
            user := Some {| id := uid; name := uname |} |})
    (fun _ =>
       t <- now ;;
       ret {| health_status := error; timestamp := t; user := None |}).

Record GetCourseStudentsArgs : Type := mkStudentsArgs {
  course_id : Z;
  enrollment_state : option string;
  include_grades : option bool;
  include_avatar : option bool;
  include_activity : option bool;
  sort_by : option string
}.

Definition flag (b : option bool) : bool := nullish b false.

(** The [URLSearchParams] built by the accessor, in order of [append]. *)
Definition students_params (args : GetCourseStudentsArgs) : list (string * string) :=
  [("enrollment_type[]", "student")]
  ++ match enrollment_state args with
     | Some st =>
         if negb (String.eqb st EmptyString) && negb (String.eqb st "all")
         then [("enrollment_state[]", st)] else []
     | None => []
     end
  ++ map (fun i => ("include[]", i))
       ((if flag (include_grades args) then ["enrollments"] else [])
        ++ (if flag (include_avatar args) then ["avatar_url"] else []))
  ++ match sort_by args with
     | Some sb => if negb (String.eqb sb EmptyString) then [("sort", sb)] else []
     | None => []
     end.

Definition students_url (args : GetCourseStudentsArgs) : string :=
  "/courses/" ++ string_of_Z (course_id args) ++ "/users?"
  ++ urlsearchparams_toString (students_params args).

Definition activity_url (student_id : option Json) : string :=
  "/users/" ++ ToString_opt student_id ++ "/page_views?per_page=1".

(** [d[0]]; [None] is the TypeError of indexing [null]. *)
Definition index0 (d : Json) : option (option Json) :=
  match d with
  | JNull => None
  | JArr items => Some (nth_error items 0)
  | JStr s => Some (nth_error (chars_of s) 0)
  | JObj fields => Some (assoc "0" fields)
  | _ => Some None
  end.

(** [first?.created_at || null] *)
Definition created_at_or_null (first : option Json) : Json :=
  match first with
  | None | Some JNull => JNull
  | Some v =>
      match get_prop v "created_at" with
      | Some c => if truthy c then c else JNull
      | None => JNull
      end
  end.

(** [{ ...student, last_activity: v }] *)
Definition with_last_activity (student v : Json) : Json :=
  JObj (set_prop "last_activity" v (spread_props student)).

(** Where a body mapped over the roster stands when it stops for the
    first time: it has thrown already, or it awaits its sub-call, which
    the wire has settled. *)
Inductive Started : Type :=
| ThrewEarly
| Awaiting (settled : Settled).

(** The body mapped over the roster, up to its [await]: reading
    [student.id] throws on [null] before any request is made; otherwise
    the sub-call is logged and put on the wire. *)
Definition startStudent (student : Json) : M Started :=
  match student with
  | JNull => ret ThrewEarly
  | _ =>
      let c := get_config (activity_url (get_prop student "id")) in
      emit (EvRequest c) ;;;
      settled <- send c ;;
      ret (Awaiting settled)
  end.

(** The body resumed when its sub-call has settled, inside its own
    [try]/[catch]. *)
Definition finishStudent (fuel : nat) (student : Json) (started : Started) : M Json :=
  try_catch
    (match started with
     | ThrewEarly => throw TypeError
     | Awaiting settled =>
         activityResponse <- respond fuel settled ;;
         match index0 (data activityResponse) with
         | None => throw TypeError
         | Some first => ret (with_last_activity student (created_at_or_null first))
         end
     end)
    (fun _ => ret (with_last_activity student JNull)).

(** [f] on every element of [l], one after the other. *)
Fixpoint in_order {A B : Type} (f : A -> M B) (l : list A) : M (list B) :=
  match l with
  | [] => ret []
  | x :: rest =>
      y <- f x ;;
      ys <- in_order f rest ;;
      ret (y :: ys)
  end.

(** [Promise.all(list.map(async x => ...))]: [map] runs every body up to
    its first [await], in list order, so all the sub-calls are on the wire
    before any of them is resumed. The bodies are then resumed one after
    the other, here in list order; the runtime resumes each when its
    response arrives. *)
Definition promise_all_map {A T B : Type}
           (start : A -> M T) (finish : A -> T -> M B) (l : list A) : M (list B) :=
  started <- in_order (fun x => t <- start x ;; ret (x, t)) l ;;
  in_order (fun xt => finish (fst xt) (snd xt)) started.

(** A sub-call is a [get] with the fuel of the accessor: one unit for the
    request, the rest for its interceptors. *)
Definition getCourseStudents (fuel : nat) (args : GetCourseStudentsArgs) : M Json :=
  response <- get fuel (students_url args) ;;
  if flag (include_activity args) then
    match data response with
    | JArr students =>
        studentsWithActivity <- promise_all_map startStudent
                                  (finishStudent (Nat.pred fuel)) students ;;
        ret (JArr studentsWithActivity)
    | _ => throw TypeError                 (* response.data.map is not a function *)
    end
  else ret (data response).

End Client.

Arguments mkState {World} world log.
Arguments world {World} s.
Arguments log {World} s.
Arguments ret {World A} a _.
Arguments throw {World A} e _.
Arguments bind {World A B} m k _.
Arguments try_catch {World A} m h _.
Arguments emit {World} e _.
Arguments send {World} wire c _.
Arguments transformError {World A} error _.
Arguments request {World} wire self fuel c _.
Arguments drain {World} wire self fuel allData nextUrl _.
Arguments get {World} wire self fuel u _.
Arguments getUserProfile {World} wire self fuel _.
Arguments healthCheck {World} wire clock self fuel _.
Arguments respond {World} wire self fuel settled _.
Arguments startStudent {World} wire student _.
Arguments finishStudent {World} wire self fuel student started _.
Arguments in_order {World A B} f l _.
Arguments promise_all_map {World A T B} start finish l _.
Arguments getCourseStudents {World} wire self fuel args _.

(** ** Teacher accessors: assignments of a course, grading queue *)

Section Teacher.

Variable World : Type.
Variable wire : World -> Config -> Settled * World.
Variable self : CanvasClient.

(** Built-ins of the runtime these accessors rely on: [Date_of v] is
    [new Date(v).getTime()], with [None] for an invalid date (NaN);
    [time_now w] is [new Date().getTime()] in state [w];
    [StringToNumber s] is the number a string converts to, with [None] for
    NaN. *)
Variable Date_of : Json -> option Z.
Variable time_now : World -> Z.
Variable StringToNumber : string -> option Z.

Local Notation "x <- m ;; k" := (bind m (fun x => k))
  (at level 61, m at next level, right associativity).

Definition current_time : M World Z :=
  fun s => Some (Returned (time_now (world s)), s).

(** [a < b] and [a > b] on time values: false when either is NaN. *)
Definition time_lt (a b : option Z) : bool :=
  match a, b with
  | Some x, Some y => x <? y
  | _, _ => false
  end.

Definition time_gt (a b : option Z) : bool := time_lt b a.

(** [items.filter(f)] for a callback that may raise ([None]). *)
Fixpoint filter_throwing (f : Json -> option bool) (items : list Json)
  : option (list Json) :=
  match items with
  | [] => Some []
  | x :: rest =>
      match f x with
      | None => None
      | Some keep =>
          match filter_throwing f rest with
          | None => None
          | Some kept => Some (if keep then x :: kept else kept)
          end
      end
  end.

Record GetCourseAssignmentsArgs : Type := mkAssignmentsArgs {
  ca_course_id : Z;
  ca_include_submissions : option bool;
  ca_include_rubric : option bool;
  ca_include_overrides : option bool;
  ca_assignment_group_id : option Z;
  ca_due_date_filter : option string;
  ca_search_term : option string
}.

(** Truthiness of an optional string and of an optional number. *)
Definition some_text (s : option string) : option string :=
  match s with
  | Some t => if String.eqb t EmptyString then None else Some t
  | None => None
  end.

Definition some_number (n : option Z) : option Z :=
  match n with
  | Some x => if x =? 0 then None else Some x
  | None => None
  end.

Definition assignments_params (args : GetCourseAssignmentsArgs)
  : list (string * string) :=
  map (fun i => ("include[]", i))
    (["submission"]
     ++ (if flag (ca_include_submissions args) then ["needs_grading_count"] else [])
     ++ (if flag (ca_include_rubric args) then ["rubric"] else [])
     ++ (if flag (ca_include_overrides args) then ["overrides"] else []))
  ++ match some_number (ca_assignment_group_id args) with
     | Some g => [("assignment_group_id", string_of_Z g)]
     | None => []
     end
  ++ match some_text (ca_search_term args) with
     | Some t => [("search_term", t)]
     | None => []
     end.

Definition assignments_url (args : GetCourseAssignmentsArgs) : string :=
  "/courses/" ++ string_of_Z (ca_course_id args) ++ "/assignments?"
  ++ urlsearchparams_toString (assignments_params args).

(** The callback of the due date filter; [None] is the TypeError of
    reading [due_at] of [null]. *)
Definition due_date_keeps (filter : string) (now : Z) (assignment : Json)
  : option bool :=
  match assignment with
  | JNull => None
  | _ =>
      let due_at := get_prop assignment "due_at" in
      if negb (truthy_opt due_at) && String.eqb filter "no_due_date" then Some true
      else if negb (truthy_opt due_at) then Some false
      else
        let dueDate := match due_at with Some d => Date_of d | None => None end in
        if String.eqb filter "past_due" then Some (time_lt dueDate (Some now))
        else if String.eqb filter "upcoming" then Some (time_gt dueDate (Some now))
        else Some true
  end.

(** What the filters past_due and upcoming test on an assignment that is
    not [null]: a truthy [due_at] denoting a date before, or after, [now]. *)
Definition due_before (now : Z) (a : Json) : bool :=
  match get_prop a "due_at" with
  | Some d => truthy d && time_lt (Date_of d) (Some now)
  | None => false
  end.

Definition due_after (now : Z) (a : Json) : bool :=
  match get_prop a "due_at" with
  | Some d => truthy d && time_gt (Date_of d) (Some now)
  | None => false
  end.

(** The filter to apply: [args.due_date_filter] when it is truthy and not
    'all'. *)
Definition active_filter (args : GetCourseAssignmentsArgs) : option string :=
  match some_text (ca_due_date_filter args) with
  | Some f => if String.eqb f "all" then None else Some f
  | None => None
  end.

Definition getCourseAssignments (fuel : nat) (args : GetCourseAssignmentsArgs)
  : M World Json :=
  response <- get wire self fuel (assignments_url args) ;;
  match active_filter args with
  | Some f =>
      now <- current_time ;;
      match data response with
      | JArr assignments =>
          match filter_throwing (due_date_keeps f now) assignments with
          | Some kept => ret (JArr kept)
          | None => throw TypeError
          end
      | _ => throw TypeError             (* assignments.filter is not a function *)
      end
  | None => ret (data response)
  end.

(** [ToNumber(v)], [None] for NaN. *)
Definition ToNumber (v : option Json) : option Z :=
  match v with
  | None => None
  | Some JNull => Some 0
  | Some (JBool b) => Some (if b then 1 else 0)
  | Some (JNum n) => Some n
  | Some (JStr s) => StringToNumber s
  | Some (JArr items) => StringToNumber (ToString (JArr items))
  | Some (JObj fields) => StringToNumber (ToString (JObj fields))
  end.

(** [v > 0] *)
Definition gt_zero (v : option Json) : bool :=
  match ToNumber v with
  | Some n => n >? 0
  | None => false
  end.

(** [v?.k] on a value that may be [undefined] or [null]. *)
Definition opt_prop (v : option Json) (k : string) : option Json :=
  match v with
  | None | Some JNull => None
  | Some x => get_prop x k
  end.

(** [a || b] *)
Definition js_or (a b : option Json) : option Json :=
  if truthy_opt a then a else b.

Record GetGradingQueueArgs : Type := mkQueueArgs {
  gq_course_id : option Z;
  gq_limit : option Z
}.

Record GradingQueueItem : Type := mkQueueItem {
  item_id : option Json;
  item_title : option Json;
  item_course_id : option Json;
  item_course_name : option Json;
  item_assignment_id : option Json;
  item_needs_grading_count : option Json;
  item_due_date : option Json;
  item_html_url : option Json;
  item_type : string
}.

Definition course_queue_url (c : Z) : string :=
  "/courses/" ++ string_of_Z c ++ "?"
  ++ urlsearchparams_toString [("include[]", "needs_grading_count")].

Definition course_assignments_queue_url (c : Z) : string :=
  "/courses/" ++ string_of_Z c ++ "/assignments?"
  ++ urlsearchparams_toString [("include[]", "needs_grading_count")].

Definition todo_url (args : GetGradingQueueArgs) : string :=
  "/users/self/todo?"
  ++ urlsearchparams_toString
       match some_number (gq_limit args) with
       | Some n => [("per_page", string_of_Z n)]
       | None => []
       end.

(** [a.needs_grading_count > 0] on an assignment that is not [null]. *)
Definition count_positive (a : Json) : bool :=
  gt_zero (get_prop a "needs_grading_count").

(** [a => a.needs_grading_count > 0]; [None] is the TypeError on [null]. *)
Definition needs_grading (a : Json) : option bool :=
  match a with
  | JNull => None
  | _ => Some (count_positive a)
  end.

(** [item.type === 'grading'] on a todo that is not [null]. *)
Definition has_grading_type (item : Json) : bool :=
  match get_prop item "type" with
  | Some (JStr t) => String.eqb t "grading"
  | _ => false
  end.

(** [item => item.type === 'grading']; [None] is the TypeError on [null]. *)
Definition is_grading_todo (item : Json) : option bool :=
  match item with
  | JNull => None
  | _ => Some (has_grading_type item)
  end.

(** The item pushed for one assignment of the course; [None] is the
    TypeError of reading [name] of a [null] course payload. *)
Definition course_item (c : Z) (course : Json) (assignment : Json)
  : option GradingQueueItem :=
  match course with
  | JNull => None
  | _ =>
      Some {| item_id := get_prop assignment "id";
              item_title := get_prop assignment "name";
              item_course_id := Some (JNum c);
              item_course_name := get_prop course "name";
              item_assignment_id := get_prop assignment "id";
              item_needs_grading_count := get_prop assignment "needs_grading_count";
              item_due_date := get_prop assignment "due_at";
              item_html_url := get_prop assignment "html_url";
              item_type := "assignment" |}
  end.

(** The item pushed for one grading todo. *)
Definition todo_item (todo : Json) : GradingQueueItem :=
  let assignment := get_prop todo "assignment" in
  {| item_id := js_or (opt_prop assignment "id") (get_prop todo "id");
     item_title := js_or (opt_prop assignment "name") (get_prop todo "title");
     item_course_id := get_prop todo "course_id";
     item_course_name := get_prop todo "context_name";
     item_assignment_id := opt_prop assignment "id";
     item_needs_grading_count :=
       js_or (get_prop todo "needs_grading_count") (Some (JNum 1));
     item_due_date := opt_prop assignment "due_at";
     item_html_url := get_prop todo "html_url";
     item_type := "assignment" |}.

Fixpoint push_all {A : Type} (f : Json -> option A) (items : list Json)
  : option (list A) :=
  match items with
  | [] => Some []
  | x :: rest =>
      match f x with
      | None => None
      | Some y =>
          match push_all f rest with
          | None => None
          | Some ys => Some (y :: ys)
          end
      end
  end.

Definition getGradingQueue (fuel : nat) (args : GetGradingQueueArgs)
  : M World (list GradingQueueItem) :=
  match some_number (gq_course_id args) with
  | Some c =>
      courseResponse <- get wire self fuel (course_queue_url c) ;;
      assignmentsResponse <- get wire self fuel (course_assignments_queue_url c) ;;
      match data assignmentsResponse with
      | JArr assignments =>
          match filter_throwing needs_grading assignments with
          | Some needing =>
              match push_all (course_item c (data courseResponse)) needing with
              | Some gradingItems => ret gradingItems
              | None => throw TypeError
              end
          | None => throw TypeError
          end
      | _ => throw TypeError
      end
  | None =>
      response <- get wire self fuel (todo_url args) ;;
      match data response with
      | JArr todos =>
          match filter_throwing is_grading_todo todos with
          | Some gradingTodos => ret (map todo_item gradingTodos)
          | None => throw TypeError
          end
      | _ => throw TypeError
      end
  end.

End Teacher.

Arguments getCourseAssignments {World} wire self Date_of time_now fuel args _.
Arguments getGradingQueue {World} wire self StringToNumber fuel args _.

(** ** Remote sides used to run the client *)

(** Status validation of the HTTP library: a status outside 2xx rejects,
    with the response attached to the error. *)
Definition settle (c : Config) (r : Response) : Settled :=
  if (200 <=? status r) && (status r <? 300) then Fulfilled r
  else Rejected {| message := "Request failed with status code " ++ string_of_Z (status r);
                   config := Some c;
                   request_sent := true;
                   response := Some r |}.

(** A request that is sent and gets no response. *)
Definition no_response (c : Config) (m : string) : Settled :=
  Rejected {| message := m; config := Some c; request_sent := true; response := None |}.

(** A server described by its reply to the [n]-th request it receives
    ([inl] a response, [inr] the message of a connection failure); the state
    of the remote side is the number of requests received so far. *)
Definition scripted (server : nat -> Config -> Response + string)
  : nat -> Config -> Settled * nat :=
  fun n c =>
    (match server n c with
     | inl r => settle c r
     | inr m => no_response c m
     end, S n).

Definition json_headers (l : option string) : Headers :=
  {| link := l; content_type := Some "application/json; charset=utf-8" |}.

Definition reply (code : Z) (d : Json) (l : option string) : Response :=
  {| status := code; data := d; headers := json_headers l |}.

Definition fresh : State nat := {| world := O; log := [] |}.

(** ** Servers and sample data for running the client *)

Definition bag (r d t : option Z) : option Options :=
  Some {| opt_maxRetries := r; opt_retryDelay := d; opt_timeout := t |}.

Definition always (code : Z) (d : Json) : nat -> Config -> Response + string :=
  fun _ _ => inl (reply code d None).

Definition unreachable : nat -> Config -> Response + string :=
  fun _ _ => inr "timeout of 30000ms exceeded".

(** A request that fails before it is sent: the error has neither a
    response nor a request. *)
Definition refused (m : string) : nat -> Config -> Settled * nat :=
  fun n c =>
    (Rejected {| message := m; config := Some c; request_sent := false;
                 response := None |}, S n).

Definition rel (name : string) : string :=
  "rel=" ++ String dquote (name ++ String dquote EmptyString).

Definition link_to (u name : string) : string := "<" ++ u ++ ">; " ++ rel name.

Definition page_url (n : string) : string :=
  "https://school.example.com/api/v1/items?page=" ++ n ++ "&per_page=10".

(** The link header of page [n]: current, next (when there is one), first
    and last. *)
Definition link_header (n : string) (next : option string) : string :=
  join "," ([link_to (page_url n) "current"]
            ++ match next with
               | Some m => [link_to (page_url m) "next"]
               | None => []
               end
            ++ [link_to (page_url "1") "first"; link_to (page_url "3") "last"]).

(** A collection of three pages linked by their next relations. *)
Definition three_pages (p1 p2 p3 : list Json) : nat -> Config -> Response + string :=
  fun _ c =>
    if String.eqb (url c) "/items" then
      inl (reply 200 (JArr p1) (Some (link_header "1" (Some "2"))))
    else if String.eqb (url c) (page_url "2") then
      inl (reply 200 (JArr p2) (Some (link_header "2" (Some "3"))))
    else if String.eqb (url c) (page_url "3") then
      inl (reply 200 (JArr p3) (Some (link_header "3" None)))
    else inl (reply 404 JNull None).

(** A first page followed by a page that the server fails to deliver. *)
Definition broken_second_page (p1 : list Json) : nat -> Config -> Response + string :=
  fun _ c =>
    if String.eqb (url c) "/items" then
      inl (reply 200 (JArr p1) (Some (link_header "1" (Some "2"))))
    else inl (reply 500 (JStr "Internal Server Error") None).

(** A first page whose next page is delivered without any link header. *)
Definition second_page_without_link (p1 p2 : list Json) : nat -> Config -> Response + string :=
  fun _ c =>
    if String.eqb (url c) "/items" then
      inl (reply 200 (JArr p1) (Some (link_header "1" (Some "2"))))
    else inl (reply 200 (JArr p2) None).

Definition validation_errors : Json :=
  JObj [("errors", JArr [JObj [("message", JStr "name is too short")];
                         JStr "points must be positive"])].

Definition wall_clock (n : nat) : string :=
  "2024-05-01T08:00:0" ++ string_of_nat n ++ ".000Z".

Definition profile_of_ada : Json :=
  JObj [("id", JNum 7); ("name", JStr "Ada"); ("login_id", JStr "ada@example.com")].

Definition student (n : Z) (who : string) : Json :=
  JObj [("id", JNum n); ("name", JStr who)].

Definition five_students : list Json :=
  [student 1 "Ada"; student 2 "Ben"; student 3 "Cleo"; student 4 "Dev"; student 5 "Eve"].

(** A course of five students; the page views of student 3 fail with 500. *)
Definition course_server : nat -> Config -> Response + string :=
  fun _ c =>
    if String.prefix "/courses/42/users?" (url c) then
      inl (reply 200 (JArr five_students) None)
    else if String.eqb (url c) (activity_url (Some (JNum 3))) then
      inl (reply 500 (JStr "Internal Server Error") None)
    else inl (reply 200 (JArr [JObj [("created_at", JStr "2024-04-30T10:00:00Z")]]) None).

Definition roster_args : GetCourseStudentsArgs :=
  {| course_id := 42; enrollment_state := Some "active"; include_grades := Some true;
     include_avatar := None; include_activity := Some true; sort_by := Some "name" |}.

Definition seen (s : Json) : Json :=
  with_last_activity s (JStr "2024-04-30T10:00:00Z").

(** ** Predicates used in the statements *)

(** [typeof d === 'object'] on a value that is not [null]. *)
Definition is_object (d : Json) : Prop :=
  (exists fields, d = JObj fields) \/ (exists items, d = JArr items).

(** The text one element of [errors] contributes: its [message] when that
    is truthy, the element itself otherwise. *)
Definition item_text (err : Json) : string :=
  match get_prop err "message" with
  | Some m => if truthy m then ToString m else ToString err
  | None => ToString err
  end.

(** The values the interceptors raise for a failure reported by the
    transport: the Typed Error of a received response, the Typed Error of
    a request without response, or the failure itself, unchanged, when it
    has neither response nor request. A TypeError of the runtime is left
    unconstrained. *)
Definition well_raised (e : Thrown) : Prop :=
  match e with
  | CanvasAPIError m s b =>
      (exists r, s = status r /\ b = data r /\ m = api_error_message s b)
      \/ (s = 0 /\ b = JNull /\ exists msg, m = network_error_message msg)
  | Unwrapped err => response err = None /\ request_sent err = false
  | TypeError => True
  end.

Definition is_typed (e : Thrown) : Prop :=
  exists m s b, e = CanvasAPIError m s b.


(** The delays of the retries numbered [n + 1] to [n + m]. *)
Fixpoint backoffs (delay0 n : Z) (m : nat) : list Z :=
  match m with
  | O => []
  | S m' => backoff delay0 (n + 1) :: backoffs delay0 (n + 1) m'
  end.




(** ** Chains of pages, link headers and sample data of the further accessors *)

(** What the page loop has appended when it returns from the page numbered
    [k] of a chain in which [m] pages remain from [k] on: the payload the
    follow-up for page [k] came back with (its own items and what its own
    loop appended), then what the loop appends from page [k + 1] on. *)
Fixpoint appended (items : nat -> list Json) (m k : nat) : list Json :=
  match m with
  | O => []
  | S m' => ((items k ++ appended items m' (S k)) ++ appended items m' (S k))%list
  end.

(** The addresses and pages of the collection served by [three_pages]. *)
Definition chain_url (k : nat) : string :=
  match k with
  | O => "/items"
  | 1%nat => page_url "2"
  | _ => page_url "3"
  end.

Definition chain_items (p1 p2 p3 : list Json) (k : nat) : list Json :=
  match k with
  | O => p1
  | 1%nat => p2
  | _ => p3
  end.

Definition chain_page (p1 p2 p3 : list Json) (k : nat) : Response :=
  match k with
  | O => reply 200 (JArr p1) (Some (link_header "1" (Some "2")))
  | 1%nat => reply 200 (JArr p2) (Some (link_header "2" (Some "3")))
  | _ => reply 200 (JArr p3) (Some (link_header "3" None))
  end.

(** [s] contains the code unit [c]. *)
Fixpoint has_char (c : ascii) (s : string) : bool :=
  match s with
  | EmptyString => false
  | String x rest => Ascii.eqb x c || has_char c rest
  end.

(** An address that can stand between [<] and [>] in one link of a link
    header: not empty, and free of commas, of [>] and of line
    terminators. *)
Definition plain_url (u : string) : Prop :=
  u <> EmptyString
  /\ has_char ","%char u = false
  /\ has_char ">"%char u = false
  /\ has_char "010"%char u = false
  /\ has_char "013"%char u = false.

(** A link header: the links of [before], then the link to [u] with the
    relation next, then [after] (empty, or a comma and further links). *)
Fixpoint header_with_next (before : list string) (u after : string) : string :=
  match before with
  | [] => link_to u "next" ++ after
  | l :: rest => l ++ "," ++ header_with_next rest u after
  end.

(** A clock for running the date filters: the two dates it knows, and the
    present between them. *)
Definition toy_date (v : Json) : option Z :=
  match v with
  | JStr d =>
      if String.eqb d "2024-04-01T00:00:00Z" then Some 1711929600000
      else if String.eqb d "2024-06-01T00:00:00Z" then Some 1717200000000
      else None
  | JNum n => Some n
  | _ => None
  end.

Definition toy_now (_ : nat) : Z := 1714550400000.

Definition toy_number (s : string) : option Z :=
  if String.eqb s EmptyString then Some 0
  else if String.eqb s "3" then Some 3
  else None.

Definition essay : Json :=
  JObj [("id", JNum 11); ("name", JStr "Essay"); ("due_at", JStr "2024-04-01T00:00:00Z");
        ("needs_grading_count", JNum 4)].

Definition project : Json :=
  JObj [("id", JNum 12); ("name", JStr "Project"); ("due_at", JStr "2024-06-01T00:00:00Z");
        ("needs_grading_count", JNum 0)].

Definition journal : Json :=
  JObj [("id", JNum 13); ("name", JStr "Journal"); ("due_at", JNull)].

Definition assignments_server : nat -> Config -> Response + string :=
  fun _ c =>
    if String.prefix "/courses/42/assignments?" (url c) then
      inl (reply 200 (JArr [essay; project; journal]) None)
    else if String.prefix "/courses/42?" (url c) then
      inl (reply 200 (JObj [("id", JNum 42); ("name", JStr "Algebra")]) None)
    else if String.prefix "/users/self/todo?" (url c) then
      inl (reply 200
             (JArr [JObj [("type", JStr "grading"); ("id", JNum 5);
                          ("assignment", essay); ("course_id", JNum 42)];
                    JObj [("type", JStr "submitting"); ("id", JNum 6)]]) None)
    else inl (reply 404 JNull None).

Definition assignments_args (f : option string) : GetCourseAssignmentsArgs :=
  {| ca_course_id := 42; ca_include_submissions := Some true; ca_include_rubric := None;
     ca_include_overrides := None; ca_assignment_group_id := None;
     ca_due_date_filter := f; ca_search_term := None |}.

(** ** Checks of the built-ins *)

Example ToString_nested :
  ToString (JArr [JNum 1; JNull; JArr [JStr "a"; JBool true]]) = "1,,a,true".
Proof. reflexivity. Qed.

Example stringify_object :
  JSON_stringify (JObj [("code", JNum 7); ("tags", JArr [JStr "x"; JNull])])
  = String.concat EmptyString
      ["{"; json_quote "code"; ":7,"; json_quote "tags"; ":[";
       json_quote "x"; ",null]}"].
Proof. reflexivity. Qed.

Example split_link :
  split_on "," "a,b,,c" = ["a"; "b"; EmptyString; "c"].
Proof. reflexivity. Qed.

Example next_of_link_header :
  getNextPageUrl
    ("<https://h/api/v1/courses?page=1>; rel=" ++ String dquote ("current" ++ String dquote
     (",<https://h/api/v1/courses?page=2>; " ++ rel_next)))
  = Some "https://h/api/v1/courses?page=2".
Proof. reflexivity. Qed.

Example no_next_in_link_header :
  getNextPageUrl ("<https://h/api/v1/courses?page=1>; rel=" ++ String dquote ("first" ++ String dquote EmptyString))
  = None.
Proof. reflexivity. Qed.

(** ** Facts about the retry guard *)

Section Guard.

Variable self : CanvasClient.

(** A configuration without a counter never passes the guard: the
    comparison of [undefined] with the limit is false. *)
Lemma retryPlan_unmarked (e : AxiosError) (c : Config) :
  config e = Some c -> __retryCount c = None -> retryPlan self e = None.
Proof.
  intros Hc Hn. unfold retryPlan. rewrite Hc, Hn. simpl.
  now rewrite andb_false_r.
Qed.

Lemma retryPlan_not_retryable (e : AxiosError) :
  shouldRetry e = false -> retryPlan self e = None.
Proof.
  intros H. unfold retryPlan. destruct (config e); [|reflexivity].
  now rewrite H.
Qed.

Lemma retryPlan_exhausted (e : AxiosError) (c : Config) (n : Z) :
  config e = Some c -> __retryCount c = Some n -> maxRetries self <= n ->
  retryPlan self e = None.
Proof.
  intros Hc Hn Hle. unfold retryPlan. rewrite Hc, Hn. simpl.
  destruct (Z.ltb_spec n (maxRetries self)); [lia|].
  now rewrite andb_false_r.
Qed.


End Guard.

(** ** One attempt that is not retried *)

Section OneAttempt.

Variable World : Type.
Variable wire : World -> Config -> Settled * World.
Variable self : CanvasClient.

Lemma request_rejected_final (fuel : nat) (c : Config) (st : State World)
      (e : AxiosError) (w' : World) :
  wire (world st) c = (Rejected e, w') ->
  retryPlan self e = None ->
  request wire self (S fuel) c st
  = transformError e {| world := w'; log := log st ++ [EvRequest c] |}.
Proof.
  intros Hw Hp. simpl. unfold bind, emit, send. simpl. rewrite Hw. simpl.
  rewrite Hp. reflexivity.
Qed.

Lemma request_fulfilled_plain (fuel : nat) (c : Config) (st : State World)
      (r : Response) (w' : World) :
  wire (world st) c = (Fulfilled r, w') ->
  paginated r = None ->
  request wire self (S fuel) c st
  = Some (Returned r, {| world := w'; log := log st ++ [EvRequest c] |}).
Proof.
  intros Hw Hp. simpl. unfold bind, emit, send. simpl. rewrite Hw. simpl.
  rewrite Hp. reflexivity.
Qed.

(** A request whose configuration carries no counter is never sent a
    second time, whatever the failure and the limit. *)
Lemma unmarked_request_never_retried (fuel : nat) (c : Config) (st : State World)
      (e : AxiosError) (w' : World) :
  wire (world st) c = (Rejected e, w') ->
  config e = Some c ->
  __retryCount c = None ->
  request wire self (S fuel) c st
  = transformError e {| world := w'; log := log st ++ [EvRequest c] |}.
Proof.
  intros Hw Hc Hn. apply request_rejected_final; [exact Hw|].
  now apply (retryPlan_unmarked self e c).
Qed.

Lemma request_retried (fuel : nat) (c : Config) (st : State World)
      (e : AxiosError) (w' : World) (c' : Config) (k delay : Z) :
  wire (world st) c = (Rejected e, w') ->
  retryPlan self e = Some (c', k, delay) ->
  request wire self (S fuel) c st
  = request wire self fuel c'
      {| world := w';
         log := log st ++ [EvRequest c; EvRetry k (maxRetries self) delay;
                           EvSleep delay] |}.
Proof.
  intros Hw Hp. simpl. unfold bind, emit, send. simpl. rewrite Hw. simpl.
  rewrite Hp. simpl. rewrite <- !app_assoc. reflexivity.
Qed.

End OneAttempt.

(** ** Counting on the log *)

Lemma attempts_app (a b : list Event) :
  attempts (a ++ b) = (attempts a + attempts b)%nat.
Proof.
  unfold attempts. now rewrite filter_app, length_app.
Qed.

Lemma sleeps_app (a b : list Event) : sleeps (a ++ b) = (sleeps a ++ sleeps b)%list.
Proof.
  induction a as [|x a IH]; simpl; [reflexivity|].
  destruct x; simpl; rewrite ?IH; reflexivity.
Qed.

Lemma requested_urls_app (a b : list Event) :
  requested_urls (a ++ b) = (requested_urls a ++ requested_urls b)%list.
Proof.
  induction a as [|x a IH]; simpl; [reflexivity|].
  destruct x; simpl; rewrite ?IH; reflexivity.
Qed.

(** ** Construction (C7) *)

(** C7, as stated, fails: a timeout supplied in the options bag is not the
    value the client uses; the constructor never reads it. *)
Lemma constructor_ignores_timeout_option :
  timeout (constructor "token" "school.example.com" (bag None None (Some 5000)))
  <> 5000.
Proof. simpl. discriminate. Qed.

(** C7 (amended): construction builds the base URL https://<host>/api/v1,
    takes maxRetries and retryDelay from the options bag when supplied and
    defaults them to 3 and 1000 otherwise, and always sets the timeout to
    30000, whatever the bag holds. (The configuration is a value no
    operation of the client returns or rebinds.) *)
Theorem constructor_configuration (token domain : string) (options : option Options) :
  let client := constructor token domain options in
  baseURL client = "https://" ++ domain ++ "/api/v1"
  /\ (forall n, opt_chain options opt_maxRetries = Some n -> maxRetries client = n)
  /\ (opt_chain options opt_maxRetries = None -> maxRetries client = 3)
  /\ (forall d, opt_chain options opt_retryDelay = Some d -> retryDelay client = d)
  /\ (opt_chain options opt_retryDelay = None -> retryDelay client = 1000)
  /\ timeout client = 30000.
Proof.
  simpl. repeat split; intros; try reflexivity;
    match goal with H : _ = _ |- _ => rewrite H end; reflexivity.
Qed.

Lemma constructor_configuration_witness :
  let client := constructor "token" "school.example.com" (bag (Some 5) None (Some 5000)) in
  baseURL client = "https://school.example.com/api/v1"
  /\ maxRetries client = 5 /\ retryDelay client = 1000 /\ timeout client = 30000.
Proof.
  pose proof (constructor_configuration "token" "school.example.com"
                (bag (Some 5) None (Some 5000))) as H.
  destruct H as (Hb & Hr & _ & _ & Hd & Ht).
  split; [exact Hb|].
  split; [apply Hr; reflexivity|].
  split; [apply Hd; reflexivity|exact Ht].
Defined.

(** ** Retry classification (C3) *)

(** C3: a failure is retryable exactly when no response was received or
    the response has status 429 or at least 500; a response with any other
    status is not retried: the call makes exactly one attempt, waits for
    nothing and raises at once the Typed Error carrying that status. *)
Theorem shouldRetry_classification :
  (forall e : AxiosError,
      shouldRetry e = true <->
      (response e = None
       \/ exists r, response e = Some r /\ (status r = 429 \/ 500 <= status r)))
  /\
  (forall (World : Type) (wire : World -> Config -> Settled * World)
          (self : CanvasClient) (fuel : nat) (c : Config) (st : State World)
          (e : AxiosError) (r : Response) (w' : World),
      wire (world st) c = (Rejected e, w') ->
      response e = Some r ->
      status r <> 429 -> status r < 500 ->
      shouldRetry e = false
      /\ exists st',
          request wire self (S fuel) c st
          = Some (Threw (CanvasAPIError (api_error_message (status r) (data r))
                           (status r) (data r)), st')
          /\ attempts (log st') = S (attempts (log st))
          /\ sleeps (log st') = sleeps (log st)).
Proof.
  split.
  - intros e. unfold shouldRetry. destruct (response e) as [r|].
    + rewrite orb_true_iff, Z.eqb_eq, Z.geb_le. split.
      * intros H. right. exists r. split; [reflexivity|]. tauto.
      * intros [H|(r' & Hr & H)]; [discriminate|]. inversion Hr; subst. tauto.
    + split; auto.
  - intros World wire self fuel c st e r w' Hw Hr H429 H500.
    assert (Hs : shouldRetry e = false).
    { unfold shouldRetry. rewrite Hr. apply orb_false_iff. split.
      - now apply Z.eqb_neq.
      - destruct (Z.geb_spec (status r) 500); [lia|reflexivity]. }
    split; [exact Hs|].
    rewrite (request_rejected_final World wire self fuel c st e w' Hw
               (retryPlan_not_retryable self e Hs)).
    unfold transformError. rewrite Hr. unfold bind, emit, throw. simpl.
    eexists. split; [reflexivity|]. simpl.
    rewrite <- app_assoc. rewrite attempts_app, sleeps_app. simpl.
    split; [unfold attempts; simpl; lia|now rewrite app_nil_r].
Qed.

Lemma shouldRetry_classification_witness :
  exists st',
    request (scripted (always 404 (JObj [("message", JStr "not found")])))
      (constructor "token" "school.example.com" None) 1
      (get_config "/courses/1") fresh
    = Some (Threw (CanvasAPIError "Canvas API Error (404): not found" 404
                     (JObj [("message", JStr "not found")])), st')
    /\ attempts (log st') = 1%nat
    /\ sleeps (log st') = [].
Proof.
  refine (proj2
    (proj2 shouldRetry_classification nat
       (scripted (always 404 (JObj [("message", JStr "not found")])))
       (constructor "token" "school.example.com" None) 0%nat
       (get_config "/courses/1") fresh _
       (reply 404 (JObj [("message", JStr "not found")]) None) 1%nat
       _ _ _ _)).
  - reflexivity.
  - reflexivity.
  - simpl. discriminate.
  - simpl. lia.
Defined.

(** ** Retry exhaustion (C1) *)

(** C1 (the code at the failing input): against a server that always
    answers 500, a call of a client built with maxRetries = 2 (or any other
    limit) makes a single attempt and waits for nothing before it raises
    the Typed Error with status 500. The configuration of a fresh call has
    no [__retryCount], so the guard compares [undefined] with the limit. *)
Theorem always_500_single_attempt (fuel : nat) (limit : Z) :
  let self := constructor "token" "school.example.com" (bag (Some limit) (Some 100) None) in
  exists st',
    get (scripted (always 500 (JStr "Internal Server Error"))) self (S fuel)
      "/courses" fresh
    = Some (Threw (CanvasAPIError "Canvas API Error (500): Internal Server Error"
                     500 (JStr "Internal Server Error")), st')
    /\ attempts (log st') = 1%nat
    /\ sleeps (log st') = [].
Proof.
  simpl. eexists. split; [reflexivity|]. split; reflexivity.
Qed.

(** The same server and limit, called with a configuration whose counter is
    already initialised: three attempts, with waits of 100 and 200 ms. *)
Example marked_config_retries :
  let self := constructor "token" "school.example.com" (bag (Some 2) (Some 100) None) in
  exists st',
    request (scripted (always 500 (JStr "Internal Server Error"))) self 3
      (with_retryCount (get_config "/courses") 0) fresh
    = Some (Threw (CanvasAPIError "Canvas API Error (500): Internal Server Error"
                     500 (JStr "Internal Server Error")), st')
    /\ attempts (log st') = 3%nat
    /\ sleeps (log st') = [100; 200].
Proof.
  simpl. eexists. split; [reflexivity|]. split; reflexivity.
Qed.

(** ** Network failures (C5) *)

(** C5: a failure with no response, on a request that was sent, is
    retryable; once the guard allows no further attempt the call raises
    the Typed Error with status 0, message "Network error: <message>" and
    body null. *)
Theorem network_failure_status_zero
        (World : Type) (wire : World -> Config -> Settled * World)
        (self : CanvasClient) (fuel : nat) (c : Config) (st : State World)
        (e : AxiosError) (w' : World) :
  wire (world st) c = (Rejected e, w') ->
  response e = None ->
  request_sent e = true ->
  retryPlan self e = None ->
  shouldRetry e = true
  /\ request wire self (S fuel) c st
     = Some (Threw (CanvasAPIError ("Network error: " ++ message e) 0 JNull),
             {| world := w';
                log := log st ++ [EvRequest c; EvNetworkError (message e)] |}).
Proof.
  intros Hw Hr Hq Hp. split.
  - unfold shouldRetry. now rewrite Hr.
  - rewrite (request_rejected_final World wire self fuel c st e w' Hw Hp).
    unfold transformError. rewrite Hr, Hq. unfold bind, emit, throw. simpl.
    now rewrite <- app_assoc.
Qed.

Lemma network_failure_status_zero_witness :
  request (scripted unreachable) (constructor "token" "school.example.com" None) 1
    (with_retryCount (get_config "/courses") 3) fresh
  = Some (Threw (CanvasAPIError "Network error: timeout of 30000ms exceeded" 0 JNull),
          {| world := 1%nat;
             log := [EvRequest (with_retryCount (get_config "/courses") 3);
                     EvNetworkError "timeout of 30000ms exceeded"] |}).
Proof.
  exact (proj2
    (network_failure_status_zero nat (scripted unreachable)
       (constructor "token" "school.example.com" None) 0%nat
       (with_retryCount (get_config "/courses") 3) fresh
       _ 1%nat eq_refl eq_refl eq_refl eq_refl)).
Defined.

(** ** Pagination (C2) *)

(** C2 (the code at the failing input): on three pages [p1], [p2], [p3]
    linked by next relations, one call returns [p1 ++ p2 ++ p3 ++ p3] and
    issues three follow-up requests, the third page being fetched twice.
    The follow-up [get] of the page loop runs the response interceptor on
    page 2, which drains page 3 itself; the outer loop then reads the next
    relation of page 2's own header and fetches page 3 again. *)
Theorem three_pages_drained_with_repeat (fuel : nat) (p1 p2 p3 : list Json) :
  exists r st',
    get (scripted (three_pages p1 p2 p3))
      (constructor "token" "school.example.com" None) (5 + fuel) "/items" fresh
    = Some (Returned r, st')
    /\ data r = JArr (p1 ++ p2 ++ p3 ++ p3)
    /\ requested_urls (log st') = ["/items"; page_url "2"; page_url "3"; page_url "3"]
    /\ attempts (log st') = 4%nat.
Proof.
  exists (reply 200 (JArr ((p1 ++ (p2 ++ p3)) ++ p3)) (Some (link_header "1" (Some "2")))).
  exists {| world := 4%nat;
            log := map (fun u => EvRequest (get_config u))
                     ["/items"; page_url "2"; page_url "3"; page_url "3"] |}.
  split; [|split; [|split]].
  - unfold get. cbn [Nat.add]. vm_compute. reflexivity.
  - simpl. now rewrite <- !app_assoc.
  - reflexivity.
  - reflexivity.
Qed.

(** With two pages the loop is exact: both pages once, one follow-up. *)
Example two_pages_drained (fuel : nat) (p2 p3 : list Json) :
  exists r st',
    get (scripted (three_pages [] p2 p3))
      (constructor "token" "school.example.com" None) (3 + fuel) (page_url "2") fresh
    = Some (Returned r, st')
    /\ data r = JArr (p2 ++ p3)
    /\ requested_urls (log st') = [page_url "2"; page_url "3"].
Proof.
  exists (reply 200 (JArr (p2 ++ p3)) (Some (link_header "2" (Some "3")))).
  exists {| world := 2%nat;
            log := map (fun u => EvRequest (get_config u)) [page_url "2"; page_url "3"] |}.
  split; [|split].
  - unfold get. cbn [Nat.add]. vm_compute. reflexivity.
  - reflexivity.
  - reflexivity.
Qed.

(** ** Error normalisation (C4) *)

Lemma length_substring0 (n : nat) (s : string) :
  (n <= String.length s)%nat -> String.length (substring0 n s) = n.
Proof.
  unfold substring0. revert s. induction n as [|n IH]; intros s Hn.
  - destruct s; reflexivity.
  - destruct s as [|ch s]; simpl in *; [lia|].
    rewrite IH by lia. reflexivity.
Qed.

Lemma length_append (a b : string) :
  String.length (a ++ b) = (String.length a + String.length b)%nat.
Proof.
  induction a as [|ch a IH]; simpl; [reflexivity|now rewrite IH].
Qed.

Lemma error_item_text (err : Json) :
  err <> JNull ->
  exists x, error_item err = Some x /\ join_item x = item_text err.
Proof.
  intros Hn. unfold error_item, item_text.
  destruct err as [|b|n|s|items|fields]; try congruence; simpl;
    try (eexists; split; reflexivity).
  destruct (assoc "message" fields) as [m|]; [|eexists; split; reflexivity].
  destruct (truthy m) eqn:Ht; [|eexists; split; reflexivity].
  exists m. split; [reflexivity|]. destruct m; simpl in *; congruence.
Qed.

Lemma map_items_null (errs : list Json) :
  In JNull errs -> map_items errs = None.
Proof.
  induction errs as [|x l IH]; intros Hin; [contradiction|].
  simpl. destruct Hin as [->|Hin]; [reflexivity|].
  destruct (error_item x); [|reflexivity]. now rewrite (IH Hin).
Qed.

Lemma map_items_texts (errs : list Json) :
  Forall (fun x => x <> JNull) errs ->
  exists items, map_items errs = Some items
                /\ map join_item items = map item_text errs.
Proof.
  induction 1 as [|x l Hx _ IH]; simpl.
  - exists []. split; reflexivity.
  - destruct (error_item_text x Hx) as (y & Hy & Hj).
    destruct IH as (ys & Hys & Hm).
    rewrite Hy, Hys. exists (y :: ys). split; [reflexivity|].
    simpl. now rewrite Hj, Hm.
Qed.

(** The detail of the message, by the shape of the body, in the order the
    client tests the shapes. *)
Lemma errorMessage_cases :
  (forall s, strlen s <= 200 -> errorMessage (JStr s) = s)
  /\ (forall s, 200 < strlen s ->
        errorMessage (JStr s) = substring0 200 s ++ "..."
        /\ strlen (errorMessage (JStr s)) = 203)
  /\ (forall d m, is_object d -> get_prop d "message" = Some m -> truthy m = true ->
        errorMessage d = ToString m)
  /\ (forall d errs, is_object d -> truthy_opt (get_prop d "message") = false ->
        get_prop d "errors" = Some (JArr errs) ->
        Forall (fun x => x <> JNull) errs ->
        errorMessage d = join ", " (map item_text errs))
  /\ (forall d errs, is_object d -> truthy_opt (get_prop d "message") = false ->
        get_prop d "errors" = Some (JArr errs) ->
        In JNull errs ->
        errorMessage d = "[object Object]")
  /\ (forall d, is_object d -> truthy_opt (get_prop d "message") = false ->
        (forall errs, get_prop d "errors" <> Some (JArr errs)) ->
        errorMessage d = JSON_stringify d)
  /\ (forall d, d = JNull \/ (exists b, d = JBool b) \/ (exists n, d = JNum n) ->
        errorMessage d = ToString d).
Proof.
  repeat apply conj.
  - intros s Hs. unfold errorMessage.
    destruct (Z.gtb_spec (strlen s) 200); [lia|reflexivity].
  - intros s Hs. unfold errorMessage.
    destruct (Z.gtb_spec (strlen s) 200); [|lia].
    split; [reflexivity|]. unfold strlen in *.
    rewrite length_append, length_substring0 by lia. reflexivity.
  - intros d m Hd Hm Ht.
    assert (E : errorMessage d
                = if truthy_opt (get_prop d "message")
                  then ToString_opt (get_prop d "message")
                  else match get_prop d "errors" with
                       | Some (JArr errs) =>
                           match map_items errs with
                           | Some items => join ", " (map join_item items)
                           | None => ToString d
                           end
                       | _ => JSON_stringify d
                       end)
      by (destruct Hd as [[f ->]|[l ->]]; reflexivity).
    rewrite E, Hm. simpl. now rewrite Ht.
  - intros d errs Hd Hm He Hall.
    destruct Hd as [[f ->]|[l ->]]; [|discriminate].
    unfold errorMessage. rewrite Hm, He.
    destruct (map_items_texts errs Hall) as (items & Hi & Hj).
    now rewrite Hi, Hj.
  - intros d errs Hd Hm He Hnull.
    destruct Hd as [[f ->]|[l ->]]; [|discriminate].
    unfold errorMessage. rewrite Hm, He, (map_items_null errs Hnull). reflexivity.
  - intros d Hd Hm He.
    destruct Hd as [[f ->]|[l ->]]; unfold errorMessage; rewrite Hm.
    + destruct (get_prop (JObj f) "errors") as [v|] eqn:Ev; [|reflexivity].
      destruct v; try reflexivity. exfalso. now apply (He items).
    + reflexivity.
  - intros d [->|[[b ->]|[n ->]]]; reflexivity.
Qed.

(** C4, as stated, fails on the text of the message: for a 404 answered
    with the plain text Not Found the client does not raise a Typed Error
    whose message is "API Error (404): Not Found". *)
Lemma message_is_not_the_stated_one :
  ~ exists body st',
      request (scripted (always 404 (JStr "Not Found")))
        (constructor "token" "school.example.com" None) 1
        (get_config "/courses/1") fresh
      = Some (Threw (CanvasAPIError "API Error (404): Not Found" 404 body), st').
Proof.
  intros (body & st' & H). vm_compute in H. discriminate H.
Qed.

(** C4 (amended): when a response was received and the guard allows no
    further attempt (retries exhausted, or a status that is not retried),
    the call raises the Typed Error with message
    "Canvas API Error (<status>): <detail>", the numeric status and the raw
    body. The detail follows a fixed order over the body: a string is used
    as it is, or cut to its first 200 characters followed by "..." when it
    is longer than 200; otherwise an object's truthy [message] is used;
    otherwise an [errors] array gives the texts of its elements (the
    element's truthy [message], else the element) joined with ", ", unless
    one of its elements is [null], in which case reading its [message]
    throws and the detail is the stringified body, "[object Object]";
    otherwise the object is JSON-serialised; any other value is
    stringified. *)
Theorem error_normalization
        (World : Type) (wire : World -> Config -> Settled * World)
        (self : CanvasClient) (fuel : nat) (c : Config) (st : State World)
        (e : AxiosError) (r : Response) (w' : World) :
  wire (world st) c = (Rejected e, w') ->
  response e = Some r ->
  retryPlan self e = None ->
  request wire self (S fuel) c st
  = Some (Threw (CanvasAPIError
                   ("Canvas API Error (" ++ string_of_Z (status r) ++ "): "
                      ++ errorMessage (data r))
                   (status r) (data r)),
          {| world := w'; log := log st ++ [EvRequest c; EvErrorResponse (status r)] |})
  /\ (forall s, strlen s <= 200 -> errorMessage (JStr s) = s)
  /\ (forall s, 200 < strlen s ->
        errorMessage (JStr s) = substring0 200 s ++ "..."
        /\ strlen (errorMessage (JStr s)) = 203)
  /\ (forall d m, is_object d -> get_prop d "message" = Some m -> truthy m = true ->
        errorMessage d = ToString m)
  /\ (forall d errs, is_object d -> truthy_opt (get_prop d "message") = false ->
        get_prop d "errors" = Some (JArr errs) ->
        Forall (fun x => x <> JNull) errs ->
        errorMessage d = join ", " (map item_text errs))
  /\ (forall d errs, is_object d -> truthy_opt (get_prop d "message") = false ->
        get_prop d "errors" = Some (JArr errs) ->
        In JNull errs ->
        errorMessage d = "[object Object]")
  /\ (forall d, is_object d -> truthy_opt (get_prop d "message") = false ->
        (forall errs, get_prop d "errors" <> Some (JArr errs)) ->
        errorMessage d = JSON_stringify d)
  /\ (forall d, d = JNull \/ (exists b, d = JBool b) \/ (exists n, d = JNum n) ->
        errorMessage d = ToString d).
Proof.
  intros Hw Hr Hp. split; [|exact errorMessage_cases].
  rewrite (request_rejected_final World wire self fuel c st e w' Hw Hp).
  unfold transformError. rewrite Hr. unfold bind, emit, throw. simpl.
  now rewrite <- app_assoc.
Qed.

Lemma error_normalization_witness :
  request (scripted (always 422 validation_errors))
    (constructor "token" "school.example.com" None) 1
    (get_config "/courses/1/assignments") fresh
  = Some (Threw (CanvasAPIError
                   "Canvas API Error (422): name is too short, points must be positive"
                   422 validation_errors),
          {| world := 1%nat;
             log := [EvRequest (get_config "/courses/1/assignments");
                     EvErrorResponse 422] |}).
Proof.
  exact (proj1
    (error_normalization nat (scripted (always 422 validation_errors))
       (constructor "token" "school.example.com" None) 0%nat
       (get_config "/courses/1/assignments") fresh
       _ (reply 422 validation_errors None) 1%nat eq_refl eq_refl eq_refl)).
Defined.

(** A plain-text body of 500 characters: the message keeps its first 200
    characters and ends with the ellipsis. *)
Example long_text_body_truncated :
  let body := string_of_list_ascii (repeat "x"%char 500) in
  api_error_message 500 (JStr body)
  = "Canvas API Error (500): " ++ string_of_list_ascii (repeat "x"%char 200) ++ "..."
  /\ String.length (errorMessage (JStr body)) = 203%nat.
Proof. split; vm_compute; reflexivity. Qed.

(** An [errors] array with a [null] element: reading the element's
    [message] throws, and the detail is the stringified body. *)
Example null_error_element :
  api_error_message 422 (JObj [("errors", JArr [JStr "a"; JNull])])
  = "Canvas API Error (422): [object Object]".
Proof. vm_compute. reflexivity. Qed.

(** ** Outcome of a call (C9) *)

Section Outcome.

Variable World : Type.
Variable wire : World -> Config -> Settled * World.
Variable self : CanvasClient.

Lemma transformError_raises (A : Type) (err : AxiosError) (st st' : State World)
      (r : Result A) :
  transformError err st = Some (r, st') ->
  exists e, r = Threw e /\ well_raised e.
Proof.
  unfold transformError.
  destruct (response err) as [resp|] eqn:Hr.
  - unfold bind, emit, throw. simpl. intros H. inversion H; subst.
    eexists. split; [reflexivity|]. simpl. left. exists resp. auto.
  - destruct (request_sent err) eqn:Hq; unfold bind, emit, throw; simpl;
      intros H; inversion H; subst; eexists; (split; [reflexivity|]); simpl.
    + right. repeat split. eexists. reflexivity.
    + auto.
Qed.

Lemma raises_well (fuel : nat) :
  (forall c st e st',
      request wire self fuel c st = Some (Threw e, st') -> well_raised e)
  /\ (forall acc u st e st',
         drain wire self fuel acc u st = Some (Threw e, st') -> well_raised e).
Proof.
  induction fuel as [|fuel [IHr IHd]]; split; try discriminate.
  - intros c st e st'. simpl. unfold bind at 1 2. unfold emit, send. simpl.
    destruct (wire (world st) c) as [settled w1]. simpl.
    destruct settled as [r|err].
    + destruct (paginated r) as [[items l]|]; [|discriminate].
      unfold bind. destruct (getNextPageUrl l) as [u|]; [|discriminate].
      destruct (drain wire self fuel items u _) as [[[all|e0] st1]|] eqn:Hd;
        try discriminate.
      intros H. inversion H; subst. eapply IHd; eauto.
    + destruct (retryPlan self err) as [[[c' k] delay]|].
      * unfold bind, emit. simpl. apply IHr.
      * intros H. destruct (transformError_raises _ _ _ _ _ H) as (e1 & He & Hw).
        inversion He; subst. exact Hw.
  - intros acc u st e st'. simpl. unfold bind.
    destruct (request wire self fuel (get_config u) st) as [[[resp|e0] st1]|] eqn:Hq;
      try discriminate.
    + destruct (spread_iter (data resp)) as [more|].
      * destruct (link (headers resp)) as [l|].
        -- destruct (getNextPageUrl l) as [u'|]; [apply IHd|discriminate].
        -- unfold throw. intros H. inversion H; subst. exact I.
      * unfold throw. intros H. inversion H; subst. exact I.
    + intros H. inversion H; subst. eapply IHr; eauto.
Qed.

Lemma drain_failure_fails_call (fuel : nat) (c : Config) (st : State World)
      (r0 : Response) (w1 : World) (items : list Json) (l u : string)
      (e : Thrown) (st2 : State World) :
  wire (world st) c = (Fulfilled r0, w1) ->
  paginated r0 = Some (items, l) ->
  getNextPageUrl l = Some u ->
  drain wire self fuel items u {| world := w1; log := log st ++ [EvRequest c] |}
  = Some (Threw e, st2) ->
  request wire self (S fuel) c st = Some (Threw e, st2).
Proof.
  intros Hw Hp Hn Hd. simpl. unfold bind at 1 2. unfold emit, send. simpl.
  rewrite Hw. simpl. rewrite Hp, Hn. unfold bind. now rewrite Hd.
Qed.

Lemma follow_up_failure_fails_drain (fuel : nat) (acc : list Json) (u : string)
      (st : State World) (e : Thrown) (st1 : State World) :
  request wire self fuel (get_config u) st = Some (Threw e, st1) ->
  drain wire self (S fuel) acc u st = Some (Threw e, st1).
Proof.
  intros H. simpl. unfold bind. now rewrite H.
Qed.

(** What the page loop returns is what it was entered with, followed by
    what it appended. *)
Lemma drain_returns_more (fuel : nat) :
  forall acc u st all st',
    drain wire self fuel acc u st = Some (Returned all, st') ->
    exists more, all = (acc ++ more)%list.
Proof.
  induction fuel as [|fuel IH]; intros acc u st all st'; [discriminate|].
  simpl. unfold bind.
  destruct (request wire self fuel (get_config u) st) as [[[resp|e0] st1]|];
    try discriminate.
  destruct (spread_iter (data resp)) as [more|]; [|discriminate].
  destruct (link (headers resp)) as [hdr|]; [|discriminate].
  destruct (getNextPageUrl hdr) as [u'|].
  - intros H. destruct (IH _ _ _ _ _ H) as (more' & ->).
    exists (more ++ more')%list. now rewrite app_assoc.
  - unfold ret. intros H. inversion H; subst. now exists more.
Qed.

(** What a call returns when its first attempt is fulfilled. *)
Lemma returned_of_fulfilled (fuel : nat) (c : Config) (st : State World)
      (r : Response) (w1 : World) (r' : Response) (st' : State World) :
  wire (world st) c = (Fulfilled r, w1) ->
  request wire self (S fuel) c st = Some (Returned r', st') ->
  (paginated r = None /\ r' = r
   /\ st' = {| world := w1; log := log st ++ [EvRequest c] |})
  \/ (exists items l,
        paginated r = Some (items, l) /\ getNextPageUrl l = None
        /\ r' = with_data r (JArr items)
        /\ st' = {| world := w1; log := log st ++ [EvRequest c] |})
  \/ (exists items l u rest,
        paginated r = Some (items, l) /\ getNextPageUrl l = Some u
        /\ drain wire self fuel items u
             {| world := w1; log := log st ++ [EvRequest c] |}
           = Some (Returned (items ++ rest)%list, st')
        /\ r' = with_data r (JArr (items ++ rest))).
Proof.
  intros Hw. simpl. unfold bind at 1 2. unfold emit, send. simpl. rewrite Hw. simpl.
  destruct (paginated r) as [[items l]|].
  - unfold bind. destruct (getNextPageUrl l) as [u|] eqn:Hn.
    + destruct (drain wire self fuel items u _) as [[[all|e0] st1]|] eqn:Hd;
        try discriminate.
      unfold ret. intros H. inversion H; subst.
      destruct (drain_returns_more _ _ _ _ _ _ Hd) as (more & ->).
      right. right. exists items, l, u, more.
      split; [reflexivity|]. split; [exact Hn|]. split; [exact Hd|reflexivity].
    + unfold ret. intros H. inversion H; subst.
      right. left. exists items, l.
      split; [reflexivity|]. split; [exact Hn|]. split; reflexivity.
  - unfold ret. intros H. inversion H; subst. left.
    split; [reflexivity|]. split; reflexivity.
Qed.

(** What a call raises when its attempt fails and is not retried. *)
Lemma raised_of_rejected (fuel : nat) (c : Config) (st : State World)
      (e : AxiosError) (w' : World) :
  wire (world st) c = (Rejected e, w') ->
  retryPlan self e = None ->
  exists st',
    request wire self (S fuel) c st
    = Some (Threw match response e with
                  | Some r =>
                      CanvasAPIError (api_error_message (status r) (data r))
                        (status r) (data r)
                  | None =>
                      if request_sent e
                      then CanvasAPIError (network_error_message (message e)) 0 JNull
                      else Unwrapped e
                  end, st').
Proof.
  intros Hw Hp. rewrite (request_rejected_final World wire self fuel c st e w' Hw Hp).
  unfold transformError.
  destruct (response e); [|destruct (request_sent e)];
    unfold bind, emit, throw; simpl; eexists; reflexivity.
Qed.

End Outcome.

(** C9, as stated, fails: a failure that has neither response nor request
    reaches the caller as it is, and is not a Typed Error. *)
Lemma unsent_failure_reaches_caller :
  ~ (forall e st',
        request (refused "Unsupported protocol")
          (constructor "token" "school.example.com" None) 1
          (get_config "/courses") fresh
        = Some (Threw e, st') ->
        is_typed e).
Proof.
  intros H.
  destruct (H _ _ eq_refl) as (m & s & b & Heq). discriminate Heq.
Qed.

(** C9 (amended): a call that completes either returns one response or
    raises one value, never a partly accumulated page sequence: a failure
    of a follow-up request is the failure of the page loop, and a failure
    of the page loop is the failure of the whole call. A failure reported
    by the transport and not retried is raised as the Typed Error of the
    response received, or as the Typed Error of status 0 when the request
    was sent and no response came; a failure with neither response nor
    request is raised unchanged. A call that returns after a fulfilled
    first attempt returns that response after that one request, as it is
    or, for a JSON array with a link header, with its own items; when the
    header names a next page, the payload is what the page loop returned,
    the items of the response followed by what the loop appended. *)
Theorem call_outcome
        (World : Type) (wire : World -> Config -> Settled * World)
        (self : CanvasClient) (fuel : nat) :
  (forall c st e st',
      request wire self fuel c st = Some (Threw e, st') -> well_raised e)
  /\ (forall c st r0 w1 items l u e st2,
         wire (world st) c = (Fulfilled r0, w1) ->
         paginated r0 = Some (items, l) ->
         getNextPageUrl l = Some u ->
         drain wire self fuel items u {| world := w1; log := log st ++ [EvRequest c] |}
         = Some (Threw e, st2) ->
         request wire self (S fuel) c st = Some (Threw e, st2))
  /\ (forall acc u st e st1,
         request wire self fuel (get_config u) st = Some (Threw e, st1) ->
         drain wire self (S fuel) acc u st = Some (Threw e, st1))
  /\ (forall c st e w' r,
         wire (world st) c = (Rejected e, w') ->
         retryPlan self e = None ->
         response e = Some r ->
         exists st',
           request wire self (S fuel) c st
           = Some (Threw (CanvasAPIError (api_error_message (status r) (data r))
                            (status r) (data r)), st'))
  /\ (forall c st e w',
         wire (world st) c = (Rejected e, w') ->
         retryPlan self e = None ->
         response e = None ->
         request_sent e = true ->
         exists st',
           request wire self (S fuel) c st
           = Some (Threw (CanvasAPIError (network_error_message (message e)) 0 JNull),
                   st'))
  /\ (forall c st e w',
         wire (world st) c = (Rejected e, w') ->
         retryPlan self e = None ->
         response e = None ->
         request_sent e = false ->
         exists st',
           request wire self (S fuel) c st = Some (Threw (Unwrapped e), st'))
  /\ (forall c st r w1 r' st',
         wire (world st) c = (Fulfilled r, w1) ->
         request wire self (S fuel) c st = Some (Returned r', st') ->
         (paginated r = None /\ r' = r
          /\ st' = {| world := w1; log := log st ++ [EvRequest c] |})
         \/ (exists items l,
               paginated r = Some (items, l) /\ getNextPageUrl l = None
               /\ r' = with_data r (JArr items)
               /\ st' = {| world := w1; log := log st ++ [EvRequest c] |})
         \/ (exists items l u rest,
               paginated r = Some (items, l) /\ getNextPageUrl l = Some u
               /\ drain wire self fuel items u
                    {| world := w1; log := log st ++ [EvRequest c] |}
                  = Some (Returned (items ++ rest)%list, st')
               /\ r' = with_data r (JArr (items ++ rest)))).
Proof.
  repeat apply conj.
  - exact (proj1 (raises_well World wire self fuel)).
  - intros. eapply drain_failure_fails_call; eauto.
  - intros. now apply follow_up_failure_fails_drain.
  - intros c st e w' r Hw Hp Hr.
    destruct (raised_of_rejected World wire self fuel c st e w' Hw Hp) as (st' & H).
    rewrite Hr in H. now exists st'.
  - intros c st e w' Hw Hp Hr Hq.
    destruct (raised_of_rejected World wire self fuel c st e w' Hw Hp) as (st' & H).
    rewrite Hr, Hq in H. now exists st'.
  - intros c st e w' Hw Hp Hr Hq.
    destruct (raised_of_rejected World wire self fuel c st e w' Hw Hp) as (st' & H).
    rewrite Hr, Hq in H. now exists st'.
  - intros c st r w1 r' st' Hw H.
    exact (returned_of_fulfilled World wire self fuel c st r w1 r' st' Hw H).
Qed.

Lemma call_outcome_witness :
  well_raised
    (CanvasAPIError "Canvas API Error (500): Internal Server Error" 500
       (JStr "Internal Server Error"))
  /\ request (scripted (broken_second_page [JNum 1; JNum 2]))
       (constructor "token" "school.example.com" None) 3
       (get_config "/items") fresh
     = Some (Threw (CanvasAPIError "Canvas API Error (500): Internal Server Error" 500
                      (JStr "Internal Server Error")),
             {| world := 2%nat;
                log := [EvRequest (get_config "/items");
                        EvRequest (get_config (page_url "2"));
                        EvErrorResponse 500] |})
  /\ exists st',
       request (refused "Unsupported protocol")
         (constructor "token" "school.example.com" None) 1
         (get_config "/courses") fresh
       = Some (Threw (Unwrapped {| message := "Unsupported protocol";
                                   config := Some (get_config "/courses");
                                   request_sent := false;
                                   response := None |}), st').
Proof.
  split; [|split].
  - exact (proj1
      (call_outcome nat (scripted (broken_second_page [JNum 1; JNum 2]))
         (constructor "token" "school.example.com" None) 3)
      (get_config "/items") fresh _ _ eq_refl).
  - exact (proj1 (proj2
      (call_outcome nat (scripted (broken_second_page [JNum 1; JNum 2]))
         (constructor "token" "school.example.com" None) 2))
      (get_config "/items") fresh _ 1%nat [JNum 1; JNum 2] _ (page_url "2") _ _
      eq_refl eq_refl eq_refl eq_refl).
  - exact (proj1 (proj2 (proj2 (proj2 (proj2 (proj2
      (call_outcome nat (refused "Unsupported protocol")
         (constructor "token" "school.example.com" None) 0))))))
      (get_config "/courses") fresh _ 1%nat eq_refl eq_refl eq_refl eq_refl).
Defined.

(** ** Health check (C10) *)

(** C10, as stated, fails: when the profile fetch succeeds with the payload
    [null], the health check does not report ok. *)
Lemma null_profile_is_not_ok :
  ~ (forall p st1,
        getUserProfile (scripted (always 200 JNull))
          (constructor "token" "school.example.com" None) 1 fresh
        = Some (Returned p, st1) ->
        exists h st2,
          healthCheck (scripted (always 200 JNull)) wall_clock
            (constructor "token" "school.example.com" None) 1 fresh
          = Some (Returned h, st2)
          /\ health_status h = ok).
Proof.
  intros H.
  destruct (H _ _ eq_refl) as (h & st2 & Hh & Hok).
  vm_compute in Hh. inversion Hh; subst. discriminate Hok.
Qed.

Section Health.

Variable World : Type.
Variable wire : World -> Config -> Settled * World.
Variable clock : World -> string.
Variable self : CanvasClient.

Lemma healthCheck_of_fetch (fuel : nat) (st : State World) :
  healthCheck wire clock self fuel st
  = match getUserProfile wire self fuel st with
    | None => None
    | Some (Returned JNull, st1) | Some (Threw _, st1) =>
        Some (Returned {| health_status := error; timestamp := clock (world st1);
                          user := None |}, st1)
    | Some (Returned p, st1) =>
        Some (Returned {| health_status := ok; timestamp := clock (world st1);
                          user := Some {| id := get_prop p "id";
                                          name := get_prop p "name" |} |}, st1)
    end.
Proof.
  unfold healthCheck, try_catch. unfold bind at 1.
  destruct (getUserProfile wire self fuel st) as [[[p|e] st1]|]; try reflexivity.
  destruct p; reflexivity.
Qed.

End Health.

(** C10 (amended): the health check never throws. It returns status ok,
    with the id and name of the profile, when the profile fetch succeeds
    with a payload other than [null]; it returns status error when the
    fetch raises anything, and also when the payload is [null]; the value
    raised is dropped. The result always carries the timestamp of the
    moment the fetch ended, and the check completes whenever the fetch
    does. *)
Theorem healthCheck_never_throws
        (World : Type) (wire : World -> Config -> Settled * World)
        (clock : World -> string) (self : CanvasClient)
        (fuel : nat) (st : State World) :
  (forall p st1,
      getUserProfile wire self fuel st = Some (Returned p, st1) -> p <> JNull ->
      healthCheck wire clock self fuel st
      = Some (Returned {| health_status := ok; timestamp := clock (world st1);
                          user := Some {| id := get_prop p "id";
                                          name := get_prop p "name" |} |}, st1))
  /\ (forall st1,
         getUserProfile wire self fuel st = Some (Returned JNull, st1) ->
         healthCheck wire clock self fuel st
         = Some (Returned {| health_status := error; timestamp := clock (world st1);
                             user := None |}, st1))
  /\ (forall e st1,
         getUserProfile wire self fuel st = Some (Threw e, st1) ->
         healthCheck wire clock self fuel st
         = Some (Returned {| health_status := error; timestamp := clock (world st1);
                             user := None |}, st1))
  /\ (forall r st', healthCheck wire clock self fuel st = Some (r, st') ->
                    exists h, r = Returned h)
  /\ (getUserProfile wire self fuel st <> None ->
      healthCheck wire clock self fuel st <> None).
Proof.
  rewrite healthCheck_of_fetch.
  destruct (getUserProfile wire self fuel st) as [[[p|e] st1]|].
  - repeat apply conj.
    + intros p' st1' H Hn. inversion H; subst. destruct p'; congruence.
    + intros st1' H. inversion H; subst. reflexivity.
    + discriminate.
    + intros r st' H. destruct p; inversion H; eexists; reflexivity.
    + intros _. destruct p; discriminate.
  - repeat apply conj; try discriminate.
    + intros e' st1' H. inversion H; subst. reflexivity.
    + intros r st' H. inversion H. eexists; reflexivity.
  - repeat apply conj; try discriminate. congruence.
Qed.

Lemma healthCheck_never_throws_witness :
  healthCheck (scripted (always 200 profile_of_ada)) wall_clock
    (constructor "token" "school.example.com" None) 1 fresh
  = Some (Returned {| health_status := ok;
                      timestamp := "2024-05-01T08:00:01.000Z";
                      user := Some {| id := Some (JNum 7);
                                      name := Some (JStr "Ada") |} |},
          {| world := 1%nat; log := [EvRequest (get_config "/users/self/profile")] |}).
Proof.
  refine (proj1
    (healthCheck_never_throws nat (scripted (always 200 profile_of_ada)) wall_clock
       (constructor "token" "school.example.com" None) 1 fresh)
    profile_of_ada _ eq_refl _).
  unfold profile_of_ada. discriminate.
Defined.

(** ** Roster with activity (C8) *)



Section Roster.

Variable World : Type.
Variable wire : World -> Config -> Settled * World.
Variable self : CanvasClient.

(** A request is its log line, the wire, and the interceptors on what the
    wire answered. *)
Lemma request_step (fuel : nat) (c : Config) (st : State World) :
  request wire self (S fuel) c st
  = bind (emit (EvRequest c))
      (fun _ => bind (send wire c) (fun settled => respond wire self fuel settled)) st.
Proof. reflexivity. Qed.











End Roster.


(** Five students, the page views of the third failing with 500. *)
Example five_students_one_failure :
  students_url roster_args
  = "/courses/42/users?enrollment_type%5B%5D=student&enrollment_state%5B%5D=active&include%5B%5D=enrollments&sort=name"
  /\ exists st',
      getCourseStudents (scripted course_server)
        (constructor "token" "school.example.com" None) 1 roster_args fresh
      = Some (Returned (JArr [seen (student 1 "Ada"); seen (student 2 "Ben");
                              with_last_activity (student 3 "Cleo") JNull;
                              seen (student 4 "Dev"); seen (student 5 "Eve")]), st')
      /\ attempts (log st') = 6%nat.
Proof.
  split; [reflexivity|]. eexists. split; [vm_compute; reflexivity|]. reflexivity.
Qed.


(** ** The retry loop on a configuration that carries a counter *)

Section RetryLoop.

Variable World : Type.
Variable wire : World -> Config -> Settled * World.
Variable self : CanvasClient.

(** Every request fails with a retryable error that carries its
    configuration. *)
Hypothesis always_retryable :
  forall w c, exists e w',
    wire w c = (Rejected e, w') /\ config e = Some c /\ shouldRetry e = true.

Lemma retryPlan_counted (e : AxiosError) (c : Config) (n : Z) :
  config e = Some c -> shouldRetry e = true ->
  __retryCount c = Some n -> n < maxRetries self ->
  retryPlan self e
  = Some (with_retryCount c (n + 1), n + 1, backoff (retryDelay self) (n + 1)).
Proof.
  intros Hc Hs Hn Hlt. unfold retryPlan. rewrite Hc, Hs, Hn. simpl.
  destruct (Z.ltb_spec n (maxRetries self)); [|lia].
  destruct (Z.eqb_spec n 0); subst; reflexivity.
Qed.

(** From a counter [n] (a count, so not negative) with [m] retries left,
    the call makes [m + 1] attempts, waits the [m] doubling delays and
    then raises. *)
Lemma retry_loop_with_counter (m : nat) :
  forall (c : Config) (n : Z) (st : State World) (fuel : nat),
    __retryCount c = Some n ->
    0 <= n ->
    maxRetries self = n + Z.of_nat m ->
    exists e st',
      request wire self (S m + fuel) c st = Some (Threw e, st')
      /\ well_raised e
      /\ attempts (log st') = (attempts (log st) + S m)%nat
      /\ sleeps (log st') = (sleeps (log st) ++ backoffs (retryDelay self) n m)%list.
Proof.
  induction m as [|m IH]; intros c n st fuel Hn Hpos Hmax.
  - destruct (always_retryable (world st) c) as (e & w' & Hw & Hc & Hs).
    assert (Hp : retryPlan self e = None)
      by (apply (retryPlan_exhausted self e c n Hc Hn); simpl in Hmax; lia).
    cbn [Nat.add].
    rewrite (request_rejected_final World wire self fuel c st e w' Hw Hp).
    destruct (transformError e {| world := w'; log := log st ++ [EvRequest c] |})
      as [[r st']|] eqn:Ht.
    + destruct (transformError_raises World Response e _ _ _ Ht) as (e1 & -> & Hwell).
      exists e1, st'. split; [reflexivity|]. split; [exact Hwell|].
      revert Ht. unfold transformError.
      destruct (response e); [|destruct (request_sent e)];
        unfold bind, emit, throw; simpl; intros Ht; inversion Ht; subst; simpl;
        rewrite <- app_assoc, attempts_app, sleeps_app; simpl;
        (split; [unfold attempts; simpl; lia|reflexivity]).
    + exfalso. revert Ht. unfold transformError.
      destruct (response e); [|destruct (request_sent e)]; discriminate.
  - destruct (always_retryable (world st) c) as (e & w' & Hw & Hc & Hs).
    assert (Hp : retryPlan self e
                 = Some (with_retryCount c (n + 1), n + 1,
                         backoff (retryDelay self) (n + 1)))
      by (apply retryPlan_counted; auto; lia).
    destruct (IH (with_retryCount c (n + 1)) (n + 1)
                {| world := w';
                   log := log st ++ [EvRequest c;
                                     EvRetry (n + 1) (maxRetries self)
                                       (backoff (retryDelay self) (n + 1));
                                     EvSleep (backoff (retryDelay self) (n + 1))] |}
                fuel eq_refl ltac:(lia) ltac:(lia))
      as (e1 & st' & Hrun & Hwell & Hatt & Hsl).
    exists e1, st'. split; [|split; [exact Hwell|split]].
    + change (S (S m) + fuel)%nat with (S (S m + fuel)).
      rewrite (request_retried World wire self _ c st e w' _ _ _ Hw Hp).
      exact Hrun.
    + rewrite Hatt. simpl. rewrite attempts_app. unfold attempts. simpl. lia.
    + rewrite Hsl. simpl. rewrite sleeps_app. simpl.
      now rewrite <- app_assoc.
Qed.

End RetryLoop.

(** ** A follow-up page without a link header *)

(** The page loop passes the missing header to [getNextPageUrl]; the
    TypeError of the runtime reaches the caller. *)
Example follow_up_without_link_header (p1 p2 : list Json) :
  exists st',
    get (scripted (second_page_without_link p1 p2))
      (constructor "token" "school.example.com" None) 3 "/items" fresh
    = Some (Threw TypeError, st')
    /\ requested_urls (log st') = ["/items"; page_url "2"].
Proof.
  eexists. split; [vm_compute; reflexivity|]. reflexivity.
Qed.

(** ** Responses the page loop leaves alone *)

Section Pages.

Variable World : Type.
Variable wire : World -> Config -> Settled * World.
Variable self : CanvasClient.

Lemma paginated_some (r : Response) (items : list Json) (l : string) :
  paginated r = Some (items, l) ->
  data r = JArr items /\ link (headers r) = Some l /\ l <> EmptyString
  /\ includes "application/json" (nullish (content_type (headers r)) EmptyString) = true.
Proof.
  unfold paginated. destruct (data r); try discriminate.
  destruct (link (headers r)) as [l0|]; [|discriminate].
  destruct (String.eqb_spec l0 EmptyString) as [->|Hne]; simpl; [discriminate|].
  destruct (includes _ _); [|discriminate].
  intros H. inversion H; subst. auto.
Qed.

Lemma paginated_of_shape (r : Response) (items : list Json) (l : string) :
  data r = JArr items -> link (headers r) = Some l -> l <> EmptyString ->
  includes "application/json" (nullish (content_type (headers r)) EmptyString) = true ->
  paginated r = Some (items, l).
Proof.
  intros Hd Hl Hne Hc. unfold paginated. rewrite Hd, Hl, Hc.
  destruct (String.eqb_spec l EmptyString); [contradiction|reflexivity].
Qed.

Lemma with_data_same (r : Response) : with_data r (data r) = r.
Proof. destruct r; reflexivity. Qed.

(** X1: a successful response that is not an array, or has no (or an
    empty) link header, or is not declared as JSON, is returned exactly as
    received, after a single request. *)
Theorem plain_response_passes_through
        (fuel : nat) (c : Config) (st : State World) (r : Response) (w' : World) :
  wire (world st) c = (Fulfilled r, w') ->
  ((forall items, data r <> JArr items)
   \/ link (headers r) = None
   \/ link (headers r) = Some EmptyString
   \/ includes "application/json" (nullish (content_type (headers r)) EmptyString) = false) ->
  request wire self (S fuel) c st
  = Some (Returned r, {| world := w'; log := log st ++ [EvRequest c] |}).
Proof.
  intros Hw Hshape. apply request_fulfilled_plain; [exact Hw|].
  destruct (paginated r) as [[items l]|] eqn:Hp; [|reflexivity].
  destruct (paginated_some r items l Hp) as (Hd & Hl & Hne & Hc).
  destruct Hshape as [H|[H|[H|H]]].
  - now destruct (H items).
  - congruence.
  - rewrite Hl in H. inversion H. contradiction.
  - congruence.
Qed.

Lemma request_single_page
      (fuel : nat) (c : Config) (st : State World) (r : Response) (w' : World)
      (items : list Json) (l : string) :
  wire (world st) c = (Fulfilled r, w') ->
  paginated r = Some (items, l) ->
  getNextPageUrl l = None ->
  request wire self (S fuel) c st
  = Some (Returned r, {| world := w'; log := log st ++ [EvRequest c] |}).
Proof.
  intros Hw Hp Hn. simpl. unfold bind, emit, send. simpl. rewrite Hw. simpl.
  rewrite Hp, Hn. unfold ret.
  destruct (paginated_some r items l Hp) as (Hd & _).
  rewrite <- Hd, with_data_same. reflexivity.
Qed.

(** X2: a JSON array whose link header names no next page is returned
    with its own items, after a single request. *)
Theorem single_page_returned_once
        (fuel : nat) (c : Config) (st : State World) (r : Response) (w' : World)
        (items : list Json) (l : string) :
  wire (world st) c = (Fulfilled r, w') ->
  data r = JArr items ->
  link (headers r) = Some l ->
  l <> EmptyString ->
  includes "application/json" (nullish (content_type (headers r)) EmptyString) = true ->
  getNextPageUrl l = None ->
  request wire self (S fuel) c st
  = Some (Returned r, {| world := w'; log := log st ++ [EvRequest c] |}).
Proof.
  intros Hw Hd Hl Hne Hc Hn.
  apply (request_single_page fuel c st r w' items l Hw); [|exact Hn].
  now apply paginated_of_shape.
Qed.

(** What the page loop receives for a follow-up page that is fulfilled and
    names no next page itself. *)
Lemma follow_up_last (fuel : nat) (u : string) (st : State World)
      (r2 : Response) (w2 : World) :
  wire (world st) (get_config u) = (Fulfilled r2, w2) ->
  (forall l, link (headers r2) = Some l -> getNextPageUrl l = None) ->
  request wire self (S fuel) (get_config u) st
  = Some (Returned r2, {| world := w2; log := log st ++ [EvRequest (get_config u)] |}).
Proof.
  intros Hw Hlast.
  destruct (paginated r2) as [[items l]|] eqn:Hp.
  - destruct (paginated_some r2 items l Hp) as (_ & Hl & _).
    apply (request_single_page fuel _ st r2 w2 items l); auto.
  - now apply request_fulfilled_plain.
Qed.

(** The response interceptor entering the page loop. *)
Lemma request_enters_loop (fuel : nat) (c : Config) (st : State World)
      (r : Response) (w1 : World) (items : list Json) (l u : string) :
  wire (world st) c = (Fulfilled r, w1) ->
  paginated r = Some (items, l) ->
  getNextPageUrl l = Some u ->
  request wire self (S fuel) c st
  = match drain wire self fuel items u {| world := w1; log := log st ++ [EvRequest c] |} with
    | Some (Returned allData, st') => Some (Returned (with_data r (JArr allData)), st')
    | Some (Threw e, st') => Some (Threw e, st')
    | None => None
    end.
Proof.
  intros Hw Hp Hn. simpl. unfold bind at 1 2. unfold emit, send. simpl.
  rewrite Hw. simpl. rewrite Hp, Hn. unfold bind, ret.
  destruct (drain wire self fuel items u _) as [[[all|e] st']|]; reflexivity.
Qed.

(** One turn of the page loop. *)
Lemma drain_turn (fuel : nat) (acc : list Json) (u : string) (st : State World) :
  drain wire self (S fuel) acc u st
  = match request wire self fuel (get_config u) st with
    | Some (Returned nextResponse, st1) =>
        match spread_iter (data nextResponse) with
        | None => Some (Threw TypeError, st1)
        | Some more =>
            match link (headers nextResponse) with
            | None => Some (Threw TypeError, st1)
            | Some l =>
                match getNextPageUrl l with
                | Some u' => drain wire self fuel (acc ++ more)%list u' st1
                | None => Some (Returned (acc ++ more)%list, st1)
                end
            end
        end
    | Some (Threw e, st1) => Some (Threw e, st1)
    | None => None
    end.
Proof.
  simpl. unfold bind.
  destruct (request wire self fuel (get_config u) st) as [[[resp|e] st1]|];
    try reflexivity.
  destruct (spread_iter (data resp)) as [more|]; [|reflexivity].
  destruct (link (headers resp)) as [hdr|]; [|reflexivity].
  destruct (getNextPageUrl hdr); reflexivity.
Qed.

(** X3: two pages linked by a next relation are returned as the items of
    the first followed by the items of the second, after exactly two
    requests, the second being a GET of the URL of the relation. *)
Theorem two_pages_concatenated
        (fuel : nat) (c : Config) (st : State World)
        (r1 r2 : Response) (w1 w2 : World) (p1 p2 : list Json) (l1 l2 u : string) :
  wire (world st) c = (Fulfilled r1, w1) ->
  paginated r1 = Some (p1, l1) ->
  getNextPageUrl l1 = Some u ->
  wire w1 (get_config u) = (Fulfilled r2, w2) ->
  data r2 = JArr p2 ->
  link (headers r2) = Some l2 ->
  getNextPageUrl l2 = None ->
  request wire self (S (S (S fuel))) c st
  = Some (Returned (with_data r1 (JArr (p1 ++ p2))),
          {| world := w2; log := log st ++ [EvRequest c; EvRequest (get_config u)] |}).
Proof.
  intros Hw1 Hp1 Hn1 Hw2 Hd2 Hl2 Hn2.
  rewrite (request_enters_loop _ c st r1 w1 p1 l1 u Hw1 Hp1 Hn1).
  rewrite drain_turn.
  rewrite (follow_up_last fuel u {| world := w1; log := log st ++ [EvRequest c] |} r2 w2).
  - rewrite Hd2. simpl. rewrite Hl2, Hn2. simpl. now rewrite <- app_assoc.
  - exact Hw2.
  - intros l Hl. congruence.
Qed.

(** X5: when the follow-up page arrives without a link header, or with a
    payload that cannot be spread, the call raises a TypeError of the
    runtime after its two requests; the first page is not returned. *)
Theorem follow_up_shape_errors
        (fuel : nat) (c : Config) (st : State World)
        (r1 r2 : Response) (w1 w2 : World) (p1 : list Json) (l1 u : string) :
  wire (world st) c = (Fulfilled r1, w1) ->
  paginated r1 = Some (p1, l1) ->
  getNextPageUrl l1 = Some u ->
  wire w1 (get_config u) = (Fulfilled r2, w2) ->
  link (headers r2) = None \/ spread_iter (data r2) = None ->
  request wire self (S (S (S fuel))) c st
  = Some (Threw TypeError,
          {| world := w2; log := log st ++ [EvRequest c; EvRequest (get_config u)] |}).
Proof.
  intros Hw1 Hp1 Hn1 Hw2 Hbad.
  assert (Hplain : paginated r2 = None).
  { destruct (paginated r2) as [[items l]|] eqn:Hp; [|reflexivity].
    destruct (paginated_some r2 items l Hp) as (Hd & Hl & _).
    destruct Hbad as [H|H]; [congruence|]. rewrite Hd in H. discriminate. }
  rewrite (request_enters_loop _ c st r1 w1 p1 l1 u Hw1 Hp1 Hn1).
  rewrite drain_turn.
  rewrite (request_fulfilled_plain World wire self fuel (get_config u)
             {| world := w1; log := log st ++ [EvRequest c] |} r2 w2 Hw2 Hplain).
  simpl. rewrite <- app_assoc. simpl.
  destruct (spread_iter (data r2)) as [more|]; [|reflexivity].
  destruct Hbad as [H|H]; [|discriminate]. now rewrite H.
Qed.

End Pages.

(** ** A chain of pages *)

Lemma pow2_pos (m : nat) : (1 <= 2 ^ m)%nat.
Proof.
  induction m as [|m IH]; simpl; lia.
Qed.

Section Chain.

Variable World : Type.
Variable wire : World -> Config -> Settled * World.
Variable self : CanvasClient.

(** Pages [0] to [last]: page [k] is served at [url_of k] whatever the
    state of the remote side, as a JSON array whose link header names page
    [k + 1] as next, except for the last page, which names none. *)
Variable last : nat.
Variable url_of : nat -> string.
Variable page : nat -> Response.
Variable items : nat -> list Json.

Hypothesis served :
  forall w k, (k <= last)%nat ->
    exists w', wire w (get_config (url_of k)) = (Fulfilled (page k), w').

Hypothesis linked :
  forall k, (k <= last)%nat ->
    exists l, paginated (page k) = Some (items k, l)
              /\ getNextPageUrl l
                 = if (k <? last)%nat then Some (url_of (S k)) else None.

Lemma chain_runs (m : nat) :
  (forall extra k st, (k + m = last)%nat ->
     exists st',
       request wire self (2 * m + 1 + extra) (get_config (url_of k)) st
       = Some (Returned (with_data (page k)
                           (JArr (items k ++ appended items m (S k)))), st')
       /\ attempts (log st') = (attempts (log st) + 2 ^ m)%nat)
  /\ (forall extra j acc st, (j + m = last)%nat ->
        exists st',
          drain wire self (2 * m + 2 + extra) acc (url_of j) st
          = Some (Returned (acc ++ appended items (S m) j)%list, st')
          /\ attempts (log st') = (attempts (log st) + (2 ^ S m - 1))%nat).
Proof.
  induction m as [|m [IHP IHQ]].
  - assert (P0 : forall extra k st, (k + 0 = last)%nat ->
              exists st',
                request wire self (2 * 0 + 1 + extra) (get_config (url_of k)) st
                = Some (Returned (with_data (page k)
                                    (JArr (items k ++ appended items 0 (S k)))), st')
                /\ attempts (log st') = (attempts (log st) + 2 ^ 0)%nat).
    { intros extra k st Hk.
      destruct (served (world st) k ltac:(lia)) as (w' & Hw).
      destruct (linked k ltac:(lia)) as (l & Hp & Hn).
      replace (k <? last)%nat with false in Hn
        by (symmetry; apply Nat.ltb_ge; lia).
      eexists. split.
      - change (2 * 0 + 1 + extra)%nat with (S extra).
        rewrite (request_single_page World wire self extra _ st _ w' _ l Hw Hp Hn).
        simpl. rewrite app_nil_r.
        destruct (paginated_some _ _ _ Hp) as (Hd & _).
        rewrite <- Hd, with_data_same. reflexivity.
      - simpl. rewrite attempts_app. unfold attempts at 2. simpl. lia. }
    split; [exact P0|].
    intros extra j acc st Hj.
    destruct (P0 extra j st Hj) as (st1 & Hrun & Hatt).
    destruct (linked j ltac:(lia)) as (l & Hp & Hn).
    replace (j <? last)%nat with false in Hn
      by (symmetry; apply Nat.ltb_ge; lia).
    destruct (paginated_some _ _ _ Hp) as (_ & Hl & _).
    exists st1. split.
    + change (2 * 0 + 2 + extra)%nat with (S (2 * 0 + 1 + extra)).
      rewrite drain_turn, Hrun. simpl. rewrite Hl, Hn.
      now rewrite !app_nil_r.
    + rewrite Hatt. simpl. lia.
  - assert (PS : forall extra k st, (k + S m = last)%nat ->
              exists st',
                request wire self (2 * S m + 1 + extra) (get_config (url_of k)) st
                = Some (Returned (with_data (page k)
                                    (JArr (items k ++ appended items (S m) (S k)))), st')
                /\ attempts (log st') = (attempts (log st) + 2 ^ S m)%nat).
    { intros extra k st Hk.
      destruct (served (world st) k ltac:(lia)) as (w' & Hw).
      destruct (linked k ltac:(lia)) as (l & Hp & Hn).
      replace (k <? last)%nat with true in Hn
        by (symmetry; apply Nat.ltb_lt; lia).
      destruct (IHQ extra (S k) (items k)
                  {| world := w'; log := log st ++ [EvRequest (get_config (url_of k))] |}
                  ltac:(lia)) as (st1 & Hrun & Hatt).
      exists st1. split.
      - replace (2 * S m + 1 + extra)%nat with (S (2 * m + 2 + extra)) by lia.
        rewrite (request_enters_loop World wire self _ _ st _ w' _ l _ Hw Hp Hn).
        rewrite Hrun. reflexivity.
      - rewrite Hatt. simpl log. rewrite attempts_app. unfold attempts at 2. simpl.
        pose proof (pow2_pos m). lia. }
    split; [exact PS|].
    intros extra j acc st Hj.
    destruct (PS extra j st Hj) as (st1 & Hrun & Hatt).
    destruct (linked j ltac:(lia)) as (l & Hp & Hn).
    replace (j <? last)%nat with true in Hn
      by (symmetry; apply Nat.ltb_lt; lia).
    destruct (paginated_some _ _ _ Hp) as (_ & Hl & _).
    destruct (IHQ (S extra) (S j) (acc ++ (items j ++ appended items (S m) (S j)))%list
                st1 ltac:(lia)) as (st2 & Hrun2 & Hatt2).
    exists st2. split.
    + replace (2 * S m + 2 + extra)%nat with (S (2 * S m + 1 + extra)) by lia.
      rewrite drain_turn, Hrun.
      cbn [data headers with_data spread_iter]. rewrite Hl, Hn.
      replace (2 * S m + 1 + extra)%nat with (2 * m + 2 + S extra)%nat by lia.
      rewrite Hrun2. f_equal. f_equal. f_equal.
      change (appended items (S (S m)) j)
        with ((items j ++ appended items (S m) (S j))
                ++ appended items (S m) (S j))%list.
      now rewrite <- !app_assoc.
    + rewrite Hatt2, Hatt.
      pose proof (pow2_pos m). simpl. lia.
Qed.

End Chain.

(** X4: on a chain of [last + 1] pages linked by next relations, one call
    completes with [2 ^ last] requests in all: each further page doubles
    the number of requests. The payload returned is the first page followed
    by what the page loop appended, in which later pages are repeated. *)
Theorem page_chain_doubles_requests
        (World : Type) (wire : World -> Config -> Settled * World)
        (self : CanvasClient) (last : nat) (url_of : nat -> string)
        (page : nat -> Response) (items : nat -> list Json)
        (extra : nat) (st : State World) :
  (forall w k, (k <= last)%nat ->
     exists w', wire w (get_config (url_of k)) = (Fulfilled (page k), w')) ->
  (forall k, (k <= last)%nat ->
     exists l, paginated (page k) = Some (items k, l)
               /\ getNextPageUrl l
                  = if (k <? last)%nat then Some (url_of (S k)) else None) ->
  exists st',
    get wire self (2 * last + 1 + extra) (url_of 0%nat) st
    = Some (Returned (with_data (page 0%nat)
                        (JArr (items 0%nat ++ appended items last 1))), st')
    /\ attempts (log st') = (attempts (log st) + 2 ^ last)%nat.
Proof.
  intros Hserved Hlinked.
  exact (proj1 (chain_runs World wire self last url_of page items Hserved Hlinked last)
           extra 0%nat st eq_refl).
Qed.

Lemma page_chain_doubles_requests_witness :
  exists st',
    get (scripted (three_pages [JNum 1] [JNum 2] [JNum 3]))
      (constructor "token" "school.example.com" None) 5 "/items" fresh
    = Some (Returned (with_data (chain_page [JNum 1] [JNum 2] [JNum 3] 0%nat)
                        (JArr [JNum 1; JNum 2; JNum 3; JNum 3])), st')
    /\ attempts (log st') = 4%nat.
Proof.
  refine (page_chain_doubles_requests nat
            (scripted (three_pages [JNum 1] [JNum 2] [JNum 3]))
            (constructor "token" "school.example.com" None) 2 chain_url
            (chain_page [JNum 1] [JNum 2] [JNum 3])
            (chain_items [JNum 1] [JNum 2] [JNum 3]) 0%nat fresh _ _).
  - intros w k Hk. exists (S w).
    destruct k as [|[|[|k]]]; reflexivity.
  - intros k Hk.
    destruct k as [|[|[|k]]]; try (eexists; split; reflexivity); lia.
Defined.

(** ** Calls whose configuration carries no counter *)

Lemma scripted_errors_carry_config (server : nat -> Config -> Response + string)
      (w : nat) (c : Config) (e : AxiosError) (w' : nat) :
  scripted server w c = (Rejected e, w') -> config e = Some c \/ config e = None.
Proof.
  unfold scripted. destruct (server w c) as [r|m]; simpl.
  - unfold settle. destruct ((200 <=? status r) && (status r <? 300));
      intros H; inversion H; subst; auto.
  - unfold no_response. intros H. inversion H; subst; auto.
Qed.

Section Quiet.

Variable World : Type.
Variable wire : World -> Config -> Settled * World.
Variable self : CanvasClient.

(** An error carries the configuration of the request that failed, when it
    carries one. *)
Hypothesis errors_carry_config :
  forall w c e w', wire w c = (Rejected e, w') -> config e = Some c \/ config e = None.

Lemma unmarked_never_planned (w : World) (c : Config) (e : AxiosError) (w' : World) :
  wire w c = (Rejected e, w') -> __retryCount c = None -> retryPlan self e = None.
Proof.
  intros Hw Hn. destruct (errors_carry_config w c e w' Hw) as [Hc|Hc].
  - now apply (retryPlan_unmarked self e c).
  - unfold retryPlan. now rewrite Hc.
Qed.

Lemma transformError_quiet (A : Type) (e : AxiosError) (st st' : State World)
      (r : Result A) :
  transformError e st = Some (r, st') -> sleeps (log st') = sleeps (log st).
Proof.
  unfold transformError.
  destruct (response e); [|destruct (request_sent e)];
    unfold bind, emit, throw; simpl; intros H; inversion H; subst; simpl;
    rewrite sleeps_app; simpl; now rewrite app_nil_r.
Qed.

Lemma quiet_runs (fuel : nat) :
  (forall c st r st',
      __retryCount c = None ->
      request wire self fuel c st = Some (r, st') ->
      sleeps (log st') = sleeps (log st))
  /\ (forall acc u st r st',
         drain wire self fuel acc u st = Some (r, st') ->
         sleeps (log st') = sleeps (log st)).
Proof.
  induction fuel as [|fuel [IHr IHd]]; split; try discriminate.
  - intros c st r st' Hn.
    destruct (wire (world st) c) as [[resp|e] w1] eqn:Hw.
    + destruct (paginated resp) as [[items l]|] eqn:Hp.
      * destruct (getNextPageUrl l) as [u|] eqn:Hu.
        -- rewrite (request_enters_loop World wire self fuel c st resp w1 items l u Hw Hp Hu).
           destruct (drain wire self fuel items u _) as [[[all|e0] st1]|] eqn:Hd;
             try discriminate;
             intros H; inversion H; subst;
             rewrite (IHd _ _ _ _ _ Hd); simpl; rewrite sleeps_app; simpl;
             now rewrite app_nil_r.
        -- rewrite (request_single_page World wire self fuel c st resp w1 items l
                      Hw Hp Hu).
           intros H. inversion H; subst. simpl. rewrite sleeps_app. simpl.
           now rewrite app_nil_r.
      * rewrite (request_fulfilled_plain World wire self fuel c st resp w1 Hw Hp).
        intros H. inversion H; subst. simpl. rewrite sleeps_app. simpl.
        now rewrite app_nil_r.
    + rewrite (request_rejected_final World wire self fuel c st e w1 Hw
                 (unmarked_never_planned _ _ _ _ Hw Hn)).
      intros H. rewrite (transformError_quiet _ _ _ _ _ H). simpl.
      rewrite sleeps_app. simpl. now rewrite app_nil_r.
  - intros acc u st r st'. rewrite drain_turn.
    destruct (request wire self fuel (get_config u) st) as [[[resp|e] st1]|] eqn:Hq;
      try discriminate.
    + pose proof (IHr (get_config u) _ _ _ eq_refl Hq) as Hs1.
      destruct (spread_iter (data resp)) as [more|].
      * destruct (link (headers resp)) as [hdr|].
        -- destruct (getNextPageUrl hdr) as [u'|].
           ++ intros H. rewrite (IHd _ _ _ _ _ H). exact Hs1.
           ++ intros H. inversion H; subst. exact Hs1.
        -- intros H. inversion H; subst. exact Hs1.
      * intros H. inversion H; subst. exact Hs1.
    + intros H. inversion H; subst. exact (IHr (get_config u) _ _ _ eq_refl Hq).
Qed.

End Quiet.

(** X7: a call made through [get] (a configuration without a retry
    counter) never waits: however it ends and however many pages it
    follows, no backoff delay is slept, because neither the call nor any
    of its follow-up requests is retried. *)
Theorem unmarked_call_never_waits
        (World : Type) (wire : World -> Config -> Settled * World)
        (self : CanvasClient) (fuel : nat) (u : string)
        (st st' : State World) (r : Result Response) :
  (forall w c e w', wire w c = (Rejected e, w') -> config e = Some c \/ config e = None) ->
  get wire self fuel u st = Some (r, st') ->
  sleeps (log st') = sleeps (log st).
Proof.
  intros Hcarry Hrun.
  exact (proj1 (quiet_runs World wire self Hcarry fuel) (get_config u) _ _ _ eq_refl Hrun).
Qed.

Lemma unmarked_call_never_waits_witness :
  sleeps
    (log {| world := 2%nat;
            log := [EvRequest (get_config "/items");
                    EvRequest (get_config (page_url "2"));
                    EvErrorResponse 500] |})
  = sleeps (log fresh).
Proof.
  exact (unmarked_call_never_waits nat (scripted (broken_second_page [JNum 1; JNum 2]))
           (constructor "token" "school.example.com" (bag (Some 5) (Some 100) None))
           3 "/items" fresh _ _
           (scripted_errors_carry_config (broken_second_page [JNum 1; JNum 2]))
           eq_refl).
Defined.

(** ** Backoff (C6) *)




Section Waits.

Variable World : Type.
Variable wire : World -> Config -> Settled * World.
Variable self : CanvasClient.



(** An error carries the configuration of the request that failed, when it
    carries one. *)
Hypothesis errors_carry_config :
  forall w c e w', wire w c = (Rejected e, w') -> config e = Some c \/ config e = None.


End Waits.



(** X6: when the configuration carries a counter [n], a count from 0 up,
    and every attempt fails with a retryable error, the call makes
    [maxRetries - n + 1] attempts, waits the doubling delays of the
    retries [n + 1] to [maxRetries] in that order, and then raises. *)
Theorem counted_call_exhausts_retries
        (World : Type) (wire : World -> Config -> Settled * World)
        (self : CanvasClient) (m : nat) (c : Config) (n : Z)
        (st : State World) (fuel : nat) :
  (forall w c0, exists e w',
      wire w c0 = (Rejected e, w') /\ config e = Some c0 /\ shouldRetry e = true) ->
  __retryCount c = Some n ->
  0 <= n ->
  maxRetries self = n + Z.of_nat m ->
  exists e st',
    request wire self (S m + fuel) c st = Some (Threw e, st')
    /\ well_raised e
    /\ attempts (log st') = (attempts (log st) + S m)%nat
    /\ sleeps (log st') = (sleeps (log st) ++ backoffs (retryDelay self) n m)%list.
Proof.
  intros Hfail Hn Hpos Hmax.
  exact (retry_loop_with_counter World wire self Hfail m c n st fuel Hn Hpos Hmax).
Qed.

Lemma counted_call_exhausts_retries_witness :
  exists e st',
    request (scripted (always 503 JNull))
      (constructor "token" "school.example.com" (bag (Some 3) (Some 100) None))
      4 (with_retryCount (get_config "/courses") 0) fresh
    = Some (Threw e, st')
    /\ well_raised e
    /\ attempts (log st') = 4%nat
    /\ sleeps (log st') = [100; 200; 400].
Proof.
  refine (counted_call_exhausts_retries nat (scripted (always 503 JNull))
            (constructor "token" "school.example.com" (bag (Some 3) (Some 100) None))
            3 (with_retryCount (get_config "/courses") 0) 0 fresh 0 _ eq_refl _ eq_refl).
  - intros w c0. eexists. exists (S w). split; [reflexivity|]. split; reflexivity.
  - lia.
Defined.

(** ** Reading the link header *)

Lemma append_assoc (a b c : string) : (a ++ b) ++ c = a ++ (b ++ c).
Proof.
  induction a as [|x a IH]; simpl; [reflexivity|now rewrite IH].
Qed.

Lemma prefix_append (n a t : string) :
  String.prefix n a = true -> String.prefix n (a ++ t) = true.
Proof.
  revert a. induction n as [|x n IH]; intros a; simpl.
  - intros _. destruct a; [destruct t|]; reflexivity.
  - destruct a as [|y a]; simpl; [discriminate|].
    destruct (ascii_dec x y); [apply IH|discriminate].
Qed.

Lemma prefix_self_append (n t : string) : String.prefix n (n ++ t) = true.
Proof.
  induction n as [|x n IH]; simpl.
  - destruct t; reflexivity.
  - destruct (ascii_dec x x); [exact IH|contradiction].
Qed.

Lemma includes_step (n : string) (x : ascii) (s : string) :
  includes n (String x s)
  = if String.prefix n (String x s) then true else includes n s.
Proof. reflexivity. Qed.

Lemma includes_cons (n : string) (x : ascii) (s : string) :
  includes n s = true -> includes n (String x s) = true.
Proof.
  intros H. rewrite includes_step, H. now destruct (String.prefix n (String x s)).
Qed.

Lemma includes_append_r (n a t : string) :
  includes n a = true -> includes n (a ++ t) = true.
Proof.
  induction a as [|x a IH].
  - simpl. destruct n; [intros _|discriminate].
    destruct t; reflexivity.
  - change (String x a ++ t) with (String x (a ++ t)).
    rewrite !includes_step.
    destruct (String.prefix n (String x a)) eqn:Hp.
    + intros _. pose proof (prefix_append n (String x a) t Hp) as Hq.
      change (String x a ++ t) with (String x (a ++ t)) in Hq. now rewrite Hq.
    + intros H. rewrite (IH H). now destruct (String.prefix n (String x (a ++ t))).
Qed.

Lemma includes_append_l (n a s : string) :
  includes n s = true -> includes n (a ++ s) = true.
Proof.
  intros H. induction a as [|x a IH]; [exact H|].
  change (String x a ++ s) with (String x (a ++ s)). now apply includes_cons.
Qed.

Lemma includes_self (n a b : string) : includes n (a ++ n ++ b) = true.
Proof.
  apply includes_append_l.
  pose proof (prefix_self_append n b) as Hp.
  destruct (n ++ b) as [|x s]; simpl in *; now rewrite Hp.
Qed.

Lemma has_char_append (c : ascii) (a b : string) :
  has_char c (a ++ b) = has_char c a || has_char c b.
Proof.
  induction a as [|x a IH]; simpl; [reflexivity|].
  now rewrite IH, orb_assoc.
Qed.

(** The shape of a split: a first piece that starts the string, and
    pieces that lie inside it; no piece holds the separator. *)
Lemma split_on_shape (c : ascii) (s : string) :
  exists p ps,
    split_on c s = p :: ps
    /\ has_char c p = false
    /\ (exists b, s = p ++ b)
    /\ (forall q, In q ps -> has_char c q = false /\ exists a b, s = a ++ q ++ b).
Proof.
  induction s as [|x s (p0 & ps0 & Es & Hc0 & (b0 & Hb0) & Hrest)]; simpl.
  - exists EmptyString, [].
    split; [reflexivity|]. split; [reflexivity|].
    split; [exists EmptyString; reflexivity|]. intros q [].
  - destruct (Ascii.eqb_spec x c) as [->|Hne].
    + exists EmptyString, (split_on c s).
      split; [reflexivity|]. split; [reflexivity|].
      split; [exists (String c s); reflexivity|].
      intros q Hin. rewrite Es in Hin. destruct Hin as [<-|Hin].
      * split; [exact Hc0|].
        exists (String c EmptyString), b0. simpl. now rewrite <- Hb0.
      * destruct (Hrest q Hin) as (Hq & a & b & Hs). split; [exact Hq|].
        exists (String c a), b. simpl. now rewrite <- Hs.
    + rewrite Es. exists (String x p0), ps0.
      split; [reflexivity|]. split.
      * simpl. rewrite Hc0. destruct (Ascii.eqb_spec x c); [contradiction|reflexivity].
      * split; [exists b0; simpl; now rewrite <- Hb0|].
        intros q Hin. destruct (Hrest q Hin) as (Hq & a & b & Hs).
        split; [exact Hq|]. exists (String x a), b. simpl. now rewrite <- Hs.
Qed.

Lemma split_on_pieces (c : ascii) (s p : string) :
  In p (split_on c s) ->
  has_char c p = false /\ exists a b, s = a ++ p ++ b.
Proof.
  destruct (split_on_shape c s) as (p0 & ps0 & Es & Hc0 & (b0 & Hb0) & Hrest).
  rewrite Es. intros [<-|Hin].
  - split; [exact Hc0|]. exists EmptyString, b0. exact Hb0.
  - exact (Hrest p Hin).
Qed.

(** A prefix free of the separator is the first piece of the split. *)
Lemma split_on_append (c : ascii) (a t : string) :
  has_char c a = false ->
  split_on c (a ++ String c t) = a :: split_on c t.
Proof.
  induction a as [|x a IH]; simpl.
  - intros _. now rewrite Ascii.eqb_refl.
  - intros H. apply orb_false_iff in H. destruct H as [Hx Ha].
    rewrite Hx, (IH Ha). reflexivity.
Qed.

Lemma split_on_whole (c : ascii) (a : string) :
  has_char c a = false -> split_on c a = [a].
Proof.
  induction a as [|x a IH]; simpl; [reflexivity|].
  intros H. apply orb_false_iff in H. destruct H as [Hx Ha].
  rewrite Hx, (IH Ha). reflexivity.
Qed.

Lemma lazy_until_gt_found (u rest : string) :
  has_char ">"%char u = false ->
  has_char "010"%char u = false ->
  has_char "013"%char u = false ->
  lazy_until_gt (u ++ String ">"%char rest) = Some u.
Proof.
  induction u as [|x u IH]; simpl; [reflexivity|].
  intros Hg Hl Hr.
  apply orb_false_iff in Hg. destruct Hg as [Hxg Hg].
  apply orb_false_iff in Hl. destruct Hl as [Hxl Hl].
  apply orb_false_iff in Hr. destruct Hr as [Hxr Hr].
  unfold line_terminator. rewrite Hxg, Hxl, Hxr. simpl.
  now rewrite (IH Hg Hl Hr).
Qed.

Lemma lazy_until_gt_chars (s g : string) :
  lazy_until_gt s = Some g ->
  (forall c, has_char c g = true -> has_char c s = true)
  /\ has_char "010"%char g = false /\ has_char "013"%char g = false.
Proof.
  revert g. induction s as [|x s IH]; intros g; simpl; [discriminate|].
  destruct (Ascii.eqb x ">"%char).
  - intros H. inversion H; subst. repeat split; intros; discriminate.
  - destruct (line_terminator x) eqn:Ht; [discriminate|].
    destruct (lazy_until_gt s) as [g0|]; [|discriminate].
    intros H. inversion H; subst.
    destruct (IH g0 eq_refl) as (Hin & Hl & Hr).
    unfold line_terminator in Ht. apply orb_false_iff in Ht. destruct Ht as [Hxl Hxr].
    repeat split.
    + intros c Hc. simpl in *. apply orb_true_iff in Hc. apply orb_true_iff.
      destruct Hc as [Hc|Hc]; [now left|right; now apply Hin].
    + simpl. now rewrite Hxl, Hl.
    + simpl. now rewrite Hxr, Hr.
Qed.

Lemma match_angle_chars (s g : string) :
  match_angle s = Some g ->
  g <> EmptyString
  /\ (forall c, has_char c g = true -> has_char c s = true)
  /\ has_char "010"%char g = false /\ has_char "013"%char g = false.
Proof.
  revert g. induction s as [|x s IH]; intros g; simpl; [discriminate|].
  assert (Hrest : match_angle s = Some g ->
                  g <> EmptyString
                  /\ (forall c, has_char c g = true -> has_char c (String x s) = true)
                  /\ has_char "010"%char g = false /\ has_char "013"%char g = false).
  { intros H. destruct (IH g H) as (Hne & Hin & Hl & Hr).
    repeat split; auto. intros c Hc. simpl. rewrite (Hin c Hc). apply orb_true_r. }
  destruct (Ascii.eqb x "<"%char); [|exact Hrest].
  destruct s as [|c1 s1]; [exact Hrest|].
  destruct (line_terminator c1) eqn:Ht; [exact Hrest|].
  destruct (lazy_until_gt s1) as [g0|] eqn:Hg; [|exact Hrest].
  intros H. inversion H; subst.
  destruct (lazy_until_gt_chars s1 g0 Hg) as (Hin & Hl & Hr).
  unfold line_terminator in Ht. apply orb_false_iff in Ht. destruct Ht as [Hxl Hxr].
  repeat split.
  - discriminate.
  - intros c Hc. simpl in *. apply orb_true_iff in Hc.
    destruct Hc as [Hc|Hc].
    + rewrite Hc. now rewrite orb_true_r.
    + rewrite (Hin c Hc). now rewrite !orb_true_r.
  - simpl. now rewrite Hxl, Hl.
  - simpl. now rewrite Hxr, Hr.
Qed.

Lemma has_char_inside (c : ascii) (a p b : string) :
  has_char c (a ++ p ++ b) = false -> has_char c p = false.
Proof.
  rewrite !has_char_append. intros H.
  apply orb_false_iff in H. destruct H as [_ H].
  apply orb_false_iff in H. tauto.
Qed.

(** X9: the address [getNextPageUrl] returns is never empty and holds no
    comma and no line terminator; so the page loop stops exactly when
    [getNextPageUrl] returns null, and an address that contains a comma
    is never returned whole. *)
Theorem next_url_is_plain (linkHeader g : string) :
  getNextPageUrl linkHeader = Some g ->
  g <> EmptyString
  /\ has_char ","%char g = false
  /\ has_char "010"%char g = false
  /\ has_char "013"%char g = false.
Proof.
  unfold getNextPageUrl.
  destruct (find (fun l => includes rel_next l) (split_on ","%char linkHeader))
    as [piece|] eqn:Hf; [|discriminate].
  intros Hm.
  destruct (find_some _ _ Hf) as (Hin & _).
  destruct (split_on_pieces _ _ _ Hin) as (Hcomma & _).
  destruct (match_angle_chars piece g Hm) as (Hne & Hsub & Hl & Hr).
  repeat split; auto.
  destruct (has_char ","%char g) eqn:Hc; [|reflexivity].
  rewrite (Hsub _ Hc) in Hcomma. discriminate.
Qed.

Lemma next_url_is_plain_witness :
  "https://school.example.com/api/v1/items?page=2&per_page=10" <> EmptyString
  /\ has_char ","%char "https://school.example.com/api/v1/items?page=2&per_page=10" = false
  /\ has_char "010"%char "https://school.example.com/api/v1/items?page=2&per_page=10" = false
  /\ has_char "013"%char "https://school.example.com/api/v1/items?page=2&per_page=10" = false.
Proof.
  exact (next_url_is_plain (link_header "1" (Some "2")) _ eq_refl).
Defined.

(** X10: a link header in which the relation next does not occur gives no
    next address: the page loop ends there. *)
Theorem no_next_relation_no_url (linkHeader : string) :
  includes rel_next linkHeader = false ->
  getNextPageUrl linkHeader = None.
Proof.
  intros Hno. unfold getNextPageUrl.
  destruct (find (fun l => includes rel_next l) (split_on ","%char linkHeader))
    as [piece|] eqn:Hf; [|reflexivity].
  destruct (find_some _ _ Hf) as (Hin & Hinc).
  destruct (split_on_pieces _ _ _ Hin) as (_ & a & b & Hs).
  assert (Hyes : includes rel_next linkHeader = true).
  { rewrite Hs. apply includes_append_l. now apply includes_append_r. }
  congruence.
Qed.

Lemma no_next_relation_no_url_witness :
  getNextPageUrl (link_header "3" None) = None.
Proof.
  exact (no_next_relation_no_url (link_header "3" None) eq_refl).
Defined.

Lemma link_to_next_shape (u : string) :
  plain_url u ->
  has_char ","%char (link_to u "next") = false
  /\ includes rel_next (link_to u "next") = true
  /\ match_angle (link_to u "next") = Some u.
Proof.
  intros (Hne & Hc & Hg & Hl & Hr). unfold link_to. repeat split.
  - rewrite !has_char_append, Hc. reflexivity.
  - apply (includes_append_l rel_next "<"). apply includes_append_l. reflexivity.
  - destruct u as [|c1 u1]; [contradiction|].
    simpl in Hg, Hl, Hr.
    apply orb_false_iff in Hg. destruct Hg as [_ Hg].
    apply orb_false_iff in Hl. destruct Hl as [Hxl Hl].
    apply orb_false_iff in Hr. destruct Hr as [Hxr Hr].
    change ("<" ++ String c1 u1 ++ ">; " ++ rel "next")
      with (String "<"%char (String c1 (u1 ++ String ">"%char ("; " ++ rel "next")))).
    cbn [match_angle]. unfold line_terminator. rewrite Hxl, Hxr.
    cbn [Ascii.eqb Bool.eqb orb]. simpl Ascii.eqb.
    now rewrite (lazy_until_gt_found u1 _ Hg Hl Hr).
Qed.

(** X8: a link header built of links that do not name the relation next,
    followed by the link to [u] with the relation next, gives back [u],
    whatever follows that link. *)
Theorem next_link_is_found (before : list string) (u after : string) :
  Forall (fun l => has_char ","%char l = false /\ includes rel_next l = false) before ->
  plain_url u ->
  after = EmptyString \/ (exists t, after = String ","%char t) ->
  getNextPageUrl (header_with_next before u after) = Some u.
Proof.
  intros Hbefore Hu Hafter.
  destruct (link_to_next_shape u Hu) as (Hcomma & Hinc & Hmatch).
  induction Hbefore as [|l rest (Hlc & Hli) _ IH]; cbn [header_with_next].
  - unfold getNextPageUrl.
    destruct Hafter as [->|(t & ->)].
    + assert (E : link_to u "next" ++ EmptyString = link_to u "next").
      { generalize (link_to u "next"). intros s0.
        induction s0 as [|x s0 IHs]; simpl; [reflexivity|now rewrite IHs]. }
      rewrite E, (split_on_whole _ _ Hcomma). cbn [find]. now rewrite Hinc.
    + rewrite (split_on_append _ _ _ Hcomma). cbn [find]. now rewrite Hinc.
  - unfold getNextPageUrl in *.
    change (l ++ "," ++ header_with_next rest u after)
      with (l ++ String ","%char (header_with_next rest u after)).
    rewrite (split_on_append _ _ _ Hlc). cbn [find]. rewrite Hli. exact IH.
Qed.

Lemma next_link_is_found_witness :
  getNextPageUrl (link_header "2" (Some "3")) = Some (page_url "3").
Proof.
  refine (next_link_is_found [link_to (page_url "2") "current"] (page_url "3")
            (String ","%char (join "," [link_to (page_url "1") "first";
                                        link_to (page_url "3") "last"])) _ _ _).
  - constructor; [split; reflexivity|constructor].
  - unfold plain_url. repeat split; try reflexivity. discriminate.
  - right. eexists. reflexivity.
Defined.

(** ** The roster accessor beyond the enrichment *)

(** X11: the tolerance of the roster accessor covers the per-student
    sub-calls only. A failure of the roster fetch itself is raised to the
    caller; without [include_activity] the payload is returned as received;
    with it, a payload that is not an array raises a TypeError, and an
    empty roster is returned empty without any further request. *)
Theorem roster_fetch_outcomes
        (World : Type) (wire : World -> Config -> Settled * World)
        (self : CanvasClient) (fuel : nat) (args : GetCourseStudentsArgs)
        (st : State World) :
  (forall e st1,
      get wire self fuel (students_url args) st = Some (Threw e, st1) ->
      getCourseStudents wire self fuel args st = Some (Threw e, st1))
  /\ (forall resp st1,
         get wire self fuel (students_url args) st = Some (Returned resp, st1) ->
         flag (include_activity args) = false ->
         getCourseStudents wire self fuel args st = Some (Returned (data resp), st1))
  /\ (forall resp st1,
         get wire self fuel (students_url args) st = Some (Returned resp, st1) ->
         flag (include_activity args) = true ->
         (forall students, data resp <> JArr students) ->
         getCourseStudents wire self fuel args st = Some (Threw TypeError, st1))
  /\ (forall resp st1,
         get wire self fuel (students_url args) st = Some (Returned resp, st1) ->
         flag (include_activity args) = true ->
         data resp = JArr [] ->
         getCourseStudents wire self fuel args st = Some (Returned (JArr []), st1)).
Proof.
  unfold getCourseStudents. repeat apply conj.
  - intros e st1 H. unfold bind. now rewrite H.
  - intros resp st1 H Hf. unfold bind. now rewrite H, Hf.
  - intros resp st1 H Hf Hn. unfold bind at 1. rewrite H, Hf.
    destruct (data resp); try reflexivity. now destruct (Hn items).
  - intros resp st1 H Hf Hd. unfold bind at 1. rewrite H, Hf, Hd. reflexivity.
Qed.

Lemma roster_fetch_outcomes_witness :
  getCourseStudents (scripted (always 403 (JObj [("message", JStr "unauthorized")])))
    (constructor "token" "school.example.com" None) 1 roster_args fresh
  = Some (Threw (CanvasAPIError "Canvas API Error (403): unauthorized" 403
                   (JObj [("message", JStr "unauthorized")])),
          {| world := 1%nat;
             log := [EvRequest (get_config (students_url roster_args));
                     EvErrorResponse 403] |}).
Proof.
  exact (proj1
    (roster_fetch_outcomes nat
       (scripted (always 403 (JObj [("message", JStr "unauthorized")])))
       (constructor "token" "school.example.com" None) 1 roster_args fresh)
    _ _ eq_refl).
Defined.

(** ** Assignments of a course and the due date filter *)

Section Assignments.

Variable World : Type.
Variable wire : World -> Config -> Settled * World.
Variable self : CanvasClient.
Variable Date_of : Json -> option Z.
Variable time_now : World -> Z.

Lemma filter_throwing_all (f : Json -> option bool) (p : Json -> bool)
      (items : list Json) :
  (forall x, In x items -> f x = Some (p x)) ->
  filter_throwing f items = Some (filter p items).
Proof.
  induction items as [|x rest IH]; intros H; simpl; [reflexivity|].
  rewrite (H x (or_introl eq_refl)), IH by (intros y Hy; apply H; now right).
  reflexivity.
Qed.

Lemma filter_throwing_null (f : Json -> option bool) (items : list Json) :
  f JNull = None -> In JNull items -> filter_throwing f items = None.
Proof.
  intros Hf. induction items as [|x rest IH]; intros Hin; [contradiction|].
  simpl. destruct Hin as [->|Hin]; [now rewrite Hf|].
  destruct (f x); [|reflexivity]. now rewrite (IH Hin).
Qed.

Lemma due_date_keeps_past (now : Z) (a : Json) :
  a <> JNull -> due_date_keeps Date_of "past_due" now a = Some (due_before Date_of now a).
Proof.
  intros Ha. unfold due_date_keeps, due_before.
  destruct a; try congruence; simpl;
    try reflexivity.
  destruct (assoc "due_at" fields) as [d|]; simpl; [|reflexivity].
  destruct (truthy d); reflexivity.
Qed.

Lemma due_date_keeps_upcoming (now : Z) (a : Json) :
  a <> JNull -> due_date_keeps Date_of "upcoming" now a = Some (due_after Date_of now a).
Proof.
  intros Ha. unfold due_date_keeps, due_after.
  destruct a; try congruence; simpl;
    try reflexivity.
  destruct (assoc "due_at" fields) as [d|]; simpl; [|reflexivity].
  destruct (truthy d); reflexivity.
Qed.

Lemma due_date_keeps_none (now : Z) (a : Json) :
  a <> JNull -> due_date_keeps Date_of "no_due_date" now a = Some true.
Proof.
  intros Ha. unfold due_date_keeps.
  destruct a; try congruence; simpl; try reflexivity.
  destruct (assoc "due_at" fields) as [d|]; simpl; [|reflexivity].
  destruct (truthy d); reflexivity.
Qed.

Lemma filter_all_true {A : Type} (l : list A) : filter (fun _ => true) l = l.
Proof.
  induction l as [|x l IH]; simpl; [reflexivity|now rewrite IH].
Qed.

Lemma getCourseAssignments_filtered (fuel : nat) (args : GetCourseAssignmentsArgs)
      (st st1 : State World) (resp : Response) (f : string) :
  get wire self fuel (assignments_url args) st = Some (Returned resp, st1) ->
  active_filter args = Some f ->
  getCourseAssignments wire self Date_of time_now fuel args st
  = match data resp with
    | JArr assignments =>
        match filter_throwing (due_date_keeps Date_of f (time_now (world st1)))
                assignments with
        | Some kept => Some (Returned (JArr kept), st1)
        | None => Some (Threw TypeError, st1)
        end
    | _ => Some (Threw TypeError, st1)
    end.
Proof.
  intros Hget Hf. unfold getCourseAssignments. unfold bind at 1.
  rewrite Hget, Hf. unfold bind, current_time.
  destruct (data resp); try reflexivity.
  destruct (filter_throwing _ items); reflexivity.
Qed.

(** X12: with the filter past_due (or upcoming) the accessor returns, in
    their order, exactly the assignments whose [due_at] is truthy and
    denotes a valid date strictly before (after) the moment the response
    arrived; an assignment without due date, with an unreadable one, or
    due at that very moment is in neither result, and no assignment is in
    both. *)
Theorem due_date_filter_splits
        (fuel : nat) (args : GetCourseAssignmentsArgs) (st st1 : State World)
        (resp : Response) (assignments : list Json) :
  get wire self fuel (assignments_url args) st = Some (Returned resp, st1) ->
  data resp = JArr assignments ->
  ~ In JNull assignments ->
  let now := time_now (world st1) in
  (active_filter args = Some "past_due" ->
   getCourseAssignments wire self Date_of time_now fuel args st
   = Some (Returned (JArr (filter (due_before Date_of now) assignments)), st1))
  /\ (active_filter args = Some "upcoming" ->
      getCourseAssignments wire self Date_of time_now fuel args st
      = Some (Returned (JArr (filter (due_after Date_of now) assignments)), st1))
  /\ (forall a, due_before Date_of now a = true ->
                exists d t, get_prop a "due_at" = Some d /\ truthy d = true
                            /\ Date_of d = Some t /\ t < now)
  /\ (forall a, due_after Date_of now a = true ->
                exists d t, get_prop a "due_at" = Some d /\ truthy d = true
                            /\ Date_of d = Some t /\ now < t)
  /\ (forall a, due_before Date_of now a = true -> due_after Date_of now a = false).
Proof.
  intros Hget Hd Hnn now.
  assert (Hnon : forall x, In x assignments -> x <> JNull)
    by (intros x Hx ->; contradiction).
  repeat apply conj.
  - intros Hf. rewrite (getCourseAssignments_filtered _ _ _ _ _ _ Hget Hf), Hd.
    rewrite (filter_throwing_all _ (due_before Date_of now)); [reflexivity|].
    intros x Hx. apply due_date_keeps_past. now apply Hnon.
  - intros Hf. rewrite (getCourseAssignments_filtered _ _ _ _ _ _ Hget Hf), Hd.
    rewrite (filter_throwing_all _ (due_after Date_of now)); [reflexivity|].
    intros x Hx. apply due_date_keeps_upcoming. now apply Hnon.
  - intros a. unfold due_before.
    destruct (get_prop a "due_at") as [d|]; [|discriminate].
    intros H. apply andb_true_iff in H. destruct H as [Ht Hl].
    unfold time_lt in Hl. destruct (Date_of d) as [t|] eqn:Hdt; [|discriminate].
    exists d, t. split; [reflexivity|]. split; [exact Ht|].
    split; [exact Hdt|]. now apply Z.ltb_lt.
  - intros a. unfold due_after.
    destruct (get_prop a "due_at") as [d|]; [|discriminate].
    intros H. apply andb_true_iff in H. destruct H as [Ht Hl].
    unfold time_gt, time_lt in Hl. destruct (Date_of d) as [t|] eqn:Hdt; [|discriminate].
    exists d, t. split; [reflexivity|]. split; [exact Ht|].
    split; [exact Hdt|]. now apply Z.ltb_lt.
  - intros a. unfold due_before, due_after, time_gt, time_lt.
    destruct (get_prop a "due_at") as [d|]; [|discriminate].
    destruct (truthy d); [|discriminate]. simpl.
    destruct (Date_of d) as [t|]; [|discriminate].
    intros H. apply Z.ltb_lt in H. apply Z.ltb_ge. lia.
Qed.

(** X13: with the filter no_due_date every assignment of the payload is
    returned, those that have a due date included: an assignment with a
    due date reaches the default branch of the selection, which keeps
    it. *)
Theorem no_due_date_filter_keeps_all
        (fuel : nat) (args : GetCourseAssignmentsArgs) (st st1 : State World)
        (resp : Response) (assignments : list Json) :
  get wire self fuel (assignments_url args) st = Some (Returned resp, st1) ->
  data resp = JArr assignments ->
  ~ In JNull assignments ->
  active_filter args = Some "no_due_date" ->
  getCourseAssignments wire self Date_of time_now fuel args st
  = Some (Returned (JArr assignments), st1).
Proof.
  intros Hget Hd Hnn Hf.
  rewrite (getCourseAssignments_filtered _ _ _ _ _ _ Hget Hf), Hd.
  rewrite (filter_throwing_all _ (fun _ => true)).
  - now rewrite filter_all_true.
  - intros x Hx. apply due_date_keeps_none. intros ->. contradiction.
Qed.

(** X14: without an active filter (absent, empty or 'all') the payload is
    returned as received, whatever its shape; with an active filter a
    payload that is not an array, or an array that holds [null], raises a
    TypeError; a failure of the request is raised unchanged. *)
Theorem assignments_filter_edges
        (fuel : nat) (args : GetCourseAssignmentsArgs) (st : State World) :
  (forall e st1,
      get wire self fuel (assignments_url args) st = Some (Threw e, st1) ->
      getCourseAssignments wire self Date_of time_now fuel args st
      = Some (Threw e, st1))
  /\ (forall resp st1,
         get wire self fuel (assignments_url args) st = Some (Returned resp, st1) ->
         ca_due_date_filter args = None
         \/ ca_due_date_filter args = Some EmptyString
         \/ ca_due_date_filter args = Some "all" ->
         getCourseAssignments wire self Date_of time_now fuel args st
         = Some (Returned (data resp), st1))
  /\ (forall resp st1 f,
         get wire self fuel (assignments_url args) st = Some (Returned resp, st1) ->
         active_filter args = Some f ->
         (forall assignments, data resp <> JArr assignments)
         \/ (exists assignments, data resp = JArr assignments /\ In JNull assignments) ->
         getCourseAssignments wire self Date_of time_now fuel args st
         = Some (Threw TypeError, st1)).
Proof.
  repeat apply conj.
  - intros e st1 H. unfold getCourseAssignments, bind. now rewrite H.
  - intros resp st1 H Hf. unfold getCourseAssignments. unfold bind at 1. rewrite H.
    assert (Ha : active_filter args = None)
      by (unfold active_filter; destruct Hf as [->|[->| ->]]; reflexivity).
    now rewrite Ha.
  - intros resp st1 f H Hf Hbad.
    rewrite (getCourseAssignments_filtered _ _ _ _ _ _ H Hf).
    destruct Hbad as [Hn|(assignments & Hd & Hin)].
    + destruct (data resp); try reflexivity. now destruct (Hn items).
    + rewrite Hd, (filter_throwing_null _ _ eq_refl Hin). reflexivity.
Qed.

End Assignments.

Lemma no_null_three (a b c : Json) :
  a <> JNull -> b <> JNull -> c <> JNull -> ~ In JNull [a; b; c].
Proof.
  intros Ha Hb Hc [H|[H|[H|[]]]]; congruence.
Qed.

Lemma due_date_filter_splits_witness :
  getCourseAssignments (scripted assignments_server)
    (constructor "token" "school.example.com" None) toy_date toy_now 1
    (assignments_args (Some "past_due")) fresh
  = Some (Returned (JArr [essay]),
          {| world := 1%nat;
             log := [EvRequest (get_config (assignments_url
                                              (assignments_args (Some "past_due"))))] |}).
Proof.
  refine (proj1
    (due_date_filter_splits nat (scripted assignments_server)
       (constructor "token" "school.example.com" None) toy_date toy_now 1
       (assignments_args (Some "past_due")) fresh _
       (reply 200 (JArr [essay; project; journal]) None) [essay; project; journal]
       eq_refl eq_refl _) eq_refl).
  apply no_null_three; discriminate.
Defined.

Lemma no_due_date_filter_keeps_all_witness :
  getCourseAssignments (scripted assignments_server)
    (constructor "token" "school.example.com" None) toy_date toy_now 1
    (assignments_args (Some "no_due_date")) fresh
  = Some (Returned (JArr [essay; project; journal]),
          {| world := 1%nat;
             log := [EvRequest (get_config (assignments_url
                                              (assignments_args (Some "no_due_date"))))] |}).
Proof.
  refine (no_due_date_filter_keeps_all nat (scripted assignments_server)
            (constructor "token" "school.example.com" None) toy_date toy_now 1
            (assignments_args (Some "no_due_date")) fresh _
            (reply 200 (JArr [essay; project; journal]) None) [essay; project; journal]
            eq_refl eq_refl _ eq_refl).
  apply no_null_three; discriminate.
Defined.

Lemma assignments_filter_edges_witness :
  getCourseAssignments (scripted (always 200 (JObj [("status", JStr "unavailable")])))
    (constructor "token" "school.example.com" None) toy_date toy_now 1
    (assignments_args (Some "upcoming")) fresh
  = Some (Threw TypeError,
          {| world := 1%nat;
             log := [EvRequest (get_config (assignments_url
                                              (assignments_args (Some "upcoming"))))] |}).
Proof.
  refine (proj2 (proj2
    (assignments_filter_edges nat
       (scripted (always 200 (JObj [("status", JStr "unavailable")])))
       (constructor "token" "school.example.com" None) toy_date toy_now 1
       (assignments_args (Some "upcoming")) fresh))
    (reply 200 (JObj [("status", JStr "unavailable")]) None) _ "upcoming"
    eq_refl eq_refl _).
  left. intros assignments. discriminate.
Defined.

(** ** The grading queue *)

Section Queue.

Variable World : Type.
Variable wire : World -> Config -> Settled * World.
Variable self : CanvasClient.
Variable StringToNumber : string -> option Z.

Lemma push_all_course (c : Z) (course : Json) (needing : list Json) :
  course <> JNull ->
  exists gradingItems,
    push_all (course_item c course) needing = Some gradingItems
    /\ Forall2 (fun a i =>
                  item_id i = get_prop a "id"
                  /\ item_title i = get_prop a "name"
                  /\ item_course_id i = Some (JNum c)
                  /\ item_course_name i = get_prop course "name"
                  /\ item_needs_grading_count i = get_prop a "needs_grading_count")
         needing gradingItems.
Proof.
  intros Hc. induction needing as [|a rest (items & Hp & Hall)]; simpl.
  - exists []. split; [reflexivity|constructor].
  - rewrite Hp. destruct course; try congruence;
      (eexists; split; [reflexivity|]; constructor; [repeat split|exact Hall]).
Qed.

(** X15: without a course (absent, or 0) the queue is read from the todo
    list in one call: one item per todo whose type is 'grading', in the
    order of the list, each of type 'assignment' and with a truthy
    needs_grading_count (the todo's own, or 1). *)
Theorem grading_queue_from_todos
        (fuel : nat) (args : GetGradingQueueArgs) (st st1 : State World)
        (resp : Response) (todos : list Json) :
  gq_course_id args = None \/ gq_course_id args = Some 0 ->
  get wire self fuel (todo_url args) st = Some (Returned resp, st1) ->
  data resp = JArr todos ->
  ~ In JNull todos ->
  getGradingQueue wire self StringToNumber fuel args st
  = Some (Returned (map todo_item (filter has_grading_type todos)), st1)
  /\ (List.length (map todo_item (filter has_grading_type todos))
      <= List.length todos)%nat
  /\ Forall (fun i => truthy_opt (item_needs_grading_count i) = true
                      /\ item_type i = "assignment")
       (map todo_item (filter has_grading_type todos)).
Proof.
  intros Hc Hget Hd Hnn. repeat apply conj.
  - unfold getGradingQueue.
    assert (Hs : some_number (gq_course_id args) = None)
      by (destruct Hc as [-> | ->]; reflexivity).
    rewrite Hs. unfold bind. rewrite Hget, Hd.
    rewrite (filter_throwing_all is_grading_todo has_grading_type); [reflexivity|].
    intros x Hx. destruct x; try reflexivity. contradiction.
  - rewrite length_map. apply filter_length_le.
  - apply Forall_forall. intros i Hi. apply in_map_iff in Hi.
    destruct Hi as (todo & <- & _). split; [|reflexivity].
    unfold todo_item, js_or. simpl.
    destruct (truthy_opt (get_prop todo "needs_grading_count")) eqn:E;
      [exact E|reflexivity].
Qed.

(** X16: with a course, the course is fetched first and its assignments
    second; a failure of the first request is raised before the second is
    made. When both succeed the queue holds one item per assignment whose
    needs_grading_count is greater than 0, in order, each carrying the
    course id of the arguments and the name of the course; a course none
    of whose assignments needs grading gives the empty queue. *)
Theorem grading_queue_of_course
        (fuel : nat) (args : GetGradingQueueArgs) (c : Z) (st : State World) :
  gq_course_id args = Some c -> c <> 0 ->
  (forall e st1,
      get wire self fuel (course_queue_url c) st = Some (Threw e, st1) ->
      getGradingQueue wire self StringToNumber fuel args st = Some (Threw e, st1))
  /\ (forall course st1 resp st2 assignments,
         get wire self fuel (course_queue_url c) st = Some (Returned course, st1) ->
         get wire self fuel (course_assignments_queue_url c) st1
         = Some (Returned resp, st2) ->
         data resp = JArr assignments ->
         ~ In JNull assignments ->
         data course <> JNull ->
         exists gradingItems,
           getGradingQueue wire self StringToNumber fuel args st
           = Some (Returned gradingItems, st2)
           /\ Forall2 (fun a i =>
                         item_id i = get_prop a "id"
                         /\ item_title i = get_prop a "name"
                         /\ item_course_id i = Some (JNum c)
                         /\ item_course_name i = get_prop (data course) "name"
                         /\ item_needs_grading_count i = get_prop a "needs_grading_count")
                (filter (count_positive StringToNumber) assignments) gradingItems)
  /\ (forall course st1 resp st2 assignments,
         get wire self fuel (course_queue_url c) st = Some (Returned course, st1) ->
         get wire self fuel (course_assignments_queue_url c) st1
         = Some (Returned resp, st2) ->
         data resp = JArr assignments ->
         ~ In JNull assignments ->
         filter (count_positive StringToNumber) assignments = [] ->
         getGradingQueue wire self StringToNumber fuel args st = Some (Returned [], st2)).
Proof.
  intros Hc Hnz.
  assert (Hs : some_number (gq_course_id args) = Some c).
  { rewrite Hc. simpl. destruct (Z.eqb_spec c 0); [contradiction|reflexivity]. }
  assert (Hfilter : forall assignments,
             ~ In JNull assignments ->
             filter_throwing (needs_grading StringToNumber) assignments
             = Some (filter (count_positive StringToNumber) assignments)).
  { intros assignments Hnn. apply filter_throwing_all.
    intros x Hx. destruct x; try reflexivity. contradiction. }
  repeat apply conj.
  - intros e st1 H. unfold getGradingQueue. rewrite Hs. unfold bind. now rewrite H.
  - intros course st1 resp st2 assignments H1 H2 Hd Hnn Hcn.
    destruct (push_all_course c (data course)
                (filter (count_positive StringToNumber) assignments) Hcn)
      as (items & Hp & Hall).
    exists items. split; [|exact Hall].
    unfold getGradingQueue. rewrite Hs. unfold bind. rewrite H1, H2, Hd.
    rewrite (Hfilter assignments Hnn), Hp. reflexivity.
  - intros course st1 resp st2 assignments H1 H2 Hd Hnn Hempty.
    unfold getGradingQueue. rewrite Hs. unfold bind. rewrite H1, H2, Hd.
    rewrite (Hfilter assignments Hnn), Hempty. reflexivity.
Qed.

End Queue.

Lemma grading_queue_from_todos_witness :
  getGradingQueue (scripted assignments_server)
    (constructor "token" "school.example.com" None) toy_number 1
    {| gq_course_id := None; gq_limit := Some 20 |} fresh
  = Some (Returned
            [{| item_id := Some (JNum 11);
                item_title := Some (JStr "Essay");
                item_course_id := Some (JNum 42);
                item_course_name := None;
                item_assignment_id := Some (JNum 11);
                item_needs_grading_count := Some (JNum 1);
                item_due_date := Some (JStr "2024-04-01T00:00:00Z");
                item_html_url := None;
                item_type := "assignment" |}],
          {| world := 1%nat;
             log := [EvRequest (get_config "/users/self/todo?per_page=20")] |}).
Proof.
  refine (proj1
    (grading_queue_from_todos nat (scripted assignments_server)
       (constructor "token" "school.example.com" None) toy_number 1
       {| gq_course_id := None; gq_limit := Some 20 |} fresh _
       (reply 200
          (JArr [JObj [("type", JStr "grading"); ("id", JNum 5);
                       ("assignment", essay); ("course_id", JNum 42)];
                 JObj [("type", JStr "submitting"); ("id", JNum 6)]]) None)
       _ (or_introl eq_refl) eq_refl eq_refl _)).
  intros [H|[H|[]]]; discriminate.
Defined.

Lemma grading_queue_of_course_witness :
  exists gradingItems,
    getGradingQueue (scripted assignments_server)
      (constructor "token" "school.example.com" None) toy_number 1
      {| gq_course_id := Some 42; gq_limit := None |} fresh
    = Some (Returned gradingItems,
            {| world := 2%nat;
               log := [EvRequest (get_config (course_queue_url 42));
                       EvRequest (get_config (course_assignments_queue_url 42))] |})
    /\ Forall2 (fun a i =>
                  item_id i = get_prop a "id"
                  /\ item_title i = get_prop a "name"
                  /\ item_course_id i = Some (JNum 42)
                  /\ item_course_name i = Some (JStr "Algebra")
                  /\ item_needs_grading_count i = get_prop a "needs_grading_count")
         [essay] gradingItems.
Proof.
  refine (proj1 (proj2
    (grading_queue_of_course nat (scripted assignments_server)
       (constructor "token" "school.example.com" None) toy_number 1
       {| gq_course_id := Some 42; gq_limit := None |} 42 fresh eq_refl _))
    (reply 200 (JObj [("id", JNum 42); ("name", JStr "Algebra")]) None) _
    (reply 200 (JArr [essay; project; journal]) None) _
    [essay; project; journal] eq_refl eq_refl eq_refl _ _).
  - discriminate.
  - apply no_null_three; discriminate.
  - discriminate.
Defined.

(** ** Runs of the page loop on the sample collection *)

Lemma plain_response_passes_through_witness :
  request (scripted (always 200 profile_of_ada))
    (constructor "token" "school.example.com" None) 1
    (get_config "/users/self/profile") fresh
  = Some (Returned (reply 200 profile_of_ada None),
          {| world := 1%nat; log := [EvRequest (get_config "/users/self/profile")] |}).
Proof.
  refine (plain_response_passes_through nat (scripted (always 200 profile_of_ada))
            (constructor "token" "school.example.com" None) 0
            (get_config "/users/self/profile") fresh _ 1%nat eq_refl _).
  left. intros items. discriminate.
Defined.

Lemma single_page_returned_once_witness :
  request (scripted (three_pages [] [] [JNum 3]))
    (constructor "token" "school.example.com" None) 1
    (get_config (page_url "3")) fresh
  = Some (Returned (reply 200 (JArr [JNum 3]) (Some (link_header "3" None))),
          {| world := 1%nat; log := [EvRequest (get_config (page_url "3"))] |}).
Proof.
  refine (single_page_returned_once nat (scripted (three_pages [] [] [JNum 3]))
            (constructor "token" "school.example.com" None) 0
            (get_config (page_url "3")) fresh _ 1%nat [JNum 3] (link_header "3" None)
            eq_refl eq_refl eq_refl _ eq_refl eq_refl).
  discriminate.
Defined.

Lemma two_pages_concatenated_witness :
  request (scripted (three_pages [] [JNum 2] [JNum 3]))
    (constructor "token" "school.example.com" None) 3
    (get_config (page_url "2")) fresh
  = Some (Returned (reply 200 (JArr [JNum 2; JNum 3]) (Some (link_header "2" (Some "3")))),
          {| world := 2%nat;
             log := [EvRequest (get_config (page_url "2"));
                     EvRequest (get_config (page_url "3"))] |}).
Proof.
  exact (two_pages_concatenated nat (scripted (three_pages [] [JNum 2] [JNum 3]))
           (constructor "token" "school.example.com" None) 0
           (get_config (page_url "2")) fresh
           (reply 200 (JArr [JNum 2]) (Some (link_header "2" (Some "3"))))
           (reply 200 (JArr [JNum 3]) (Some (link_header "3" None)))
           1%nat 2%nat [JNum 2] [JNum 3]
           (link_header "2" (Some "3")) (link_header "3" None) (page_url "3")
           eq_refl eq_refl eq_refl eq_refl eq_refl eq_refl eq_refl).
Defined.

Lemma follow_up_shape_errors_witness :
  request (scripted (second_page_without_link [JNum 1] [JNum 2]))
    (constructor "token" "school.example.com" None) 3
    (get_config "/items") fresh
  = Some (Threw TypeError,
          {| world := 2%nat;
             log := [EvRequest (get_config "/items");
                     EvRequest (get_config (page_url "2"))] |}).
Proof.
  exact (follow_up_shape_errors nat (scripted (second_page_without_link [JNum 1] [JNum 2]))
           (constructor "token" "school.example.com" None) 0
           (get_config "/items") fresh
           (reply 200 (JArr [JNum 1]) (Some (link_header "1" (Some "2"))))
           (reply 200 (JArr [JNum 2]) None)
           1%nat 2%nat [JNum 1] (link_header "1" (Some "2")) (page_url "2")
           eq_refl eq_refl eq_refl eq_refl (or_introl eq_refl)).
Defined.
